(** * Oahu Sustainability Calculator: the impact scoring engine

    A shallow embedding of the computing functions of [main.py]: the
    utilities [get_score_color] and [normalize_value], the factor table
    [get_oahu_environmental_factors], [calculate_impact] with the five
    category calculators and the three physical estimators it calls, the
    data of [create_carbon_breakdown_chart], the banner of [results_page]
    and the improvement-area selection at the head of
    [get_personalized_recommendations]; followed by the properties of the
    engine.

    Numbers.  The questionnaire delivers Python numbers; every arithmetic
    expression of the engine is modelled over the exact rationals [Q].
    Python's [int] values embed in [Q]; a Python [float] is idealised as the
    rational it approximates, so the binary rounding of IEEE-754 arithmetic is
    not part of the model.  [round(x)] is Python 3's round-half-to-even and
    returns an integer ([Z]); [round(x, 1)] rounds half-to-even at one decimal.

    Exceptions.  A dictionary subscript with a missing key raises [KeyError],
    a division by zero raises [ZeroDivisionError]; both are modelled by the
    [result] type and its bind. *)

From Stdlib Require Import ZArith QArith Qround Qminmax Qabs Lqa Lia List String Bool.
Import ListNotations.

Open Scope string_scope.
Open Scope Q_scope.

(** ** Python numerics *)

Module Py.

(** [a < b] and [a > b] on numbers. *)
Definition ltb (a b : Q) : bool := negb (Qle_bool b a).
Definition gtb (a b : Q) : bool := ltb b a.

(** [round(x)]: nearest integer, ties to the even neighbour. *)
Definition round (x : Q) : Z :=
  let f := Qfloor x in
  match (x - inject_Z f ?= 1 # 2)%Q with
  | Lt => f
  | Gt => (f + 1)%Z
  | Eq => if Z.even f then f else (f + 1)%Z
  end.

(** [round(x, 1)]: one decimal place. *)
Definition round1 (x : Q) : Q := inject_Z (round (x * 10)) / 10.

(** Exceptions the engine can raise. *)
Inductive exn : Type :=
| KeyError (key : string)
| ZeroDivisionError.

Inductive result (A : Type) : Type :=
| Ok (a : A)
| Raise (e : exn).
Arguments Ok {A} a.
Arguments Raise {A} e.

Definition bind {A B : Type} (c : result A) (k : A -> result B) : result B :=
  match c with
  | Ok a => k a
  | Raise e => Raise e
  end.

(** [a / b], true division. *)
Definition div (a b : Q) : result Q :=
  if Qeq_bool b 0 then Raise ZeroDivisionError else Ok (a / b).

(** A dictionary literal with string keys, in source order. *)
Definition dict (V : Type) : Type := list (string * V).

(** [d[k]]. *)
Fixpoint getitem {V : Type} (d : dict V) (k : string) : result V :=
  match d with
  | [] => Raise (KeyError k)
  | (k', v) :: d' => if String.eqb k' k then Ok v else getitem d' k
  end.

(** [k in l] for a list of strings. *)
Fixpoint contains (l : list string) (k : string) : bool :=
  match l with
  | [] => false
  | x :: l' => String.eqb x k || contains l' k
  end.

End Py.

Notation "x <- c ;; k" := (Py.bind c (fun x => k))
  (at level 61, c at next level, right associativity).

Import Py.

(** ** Data model *)

(** The questionnaire record ([user_data]).  Enumerated answers are the
    option strings of the form; [water_conservation] is the list returned by
    the multi-select. *)
Record UserProfile : Type := {
  car_usage : Q;
  car_type : string;
  public_transport_usage : Q;
  flight_hours : Q;
  household_size : Z;
  electricity_bill : Q;
  renewable_energy : string;
  air_conditioning : Q;
  shower_length : Q;
  shower_frequency : Q;
  water_conservation : list string;
  recycling_habit : string;
  composting : bool;
  single_use_plastics : string;
  local_food : Q;
  diet_type : string;
  meals_out : Q
}.

(** The nested factor dictionary, one record per domain. *)
Record TransportFactors : Type := {
  traffic_congestion_factor : Q;
  public_transport_quality : Q;
  ev_grid_impact : Q;
  avg_commute_distance : Q
}.

Record EnergyFactors : Type := {
  electricity_cost : Q;
  renewable_percentage : Q;
  fossil_fuel_dependency : Q;
  solar_potential : Q
}.

Record WaterFactors : Type := {
  freshwater_scarcity : Q;
  rainfall_variation : Q;
  groundwater_stress : Q;
  avg_consumption : Q
}.

Record WasteFactors : Type := {
  limited_landfill_space : Q;
  recycling_infrastructure : Q;
  marine_debris_impact : Q;
  waste_to_energy : Q
}.

Record FoodFactors : Type := {
  import_dependency : Q;
  local_agriculture_capacity : Q;
  fishing_sustainability : Q;
  food_price_factor : Q
}.

Record CarbonFactors : Type := {
  island_multiplier : Q;
  tourism_impact : Q;
  baseline_emissions : Q
}.

Record EnvironmentalFactors : Type := {
  transport : TransportFactors;
  energy : EnergyFactors;
  water : WaterFactors;
  waste : WasteFactors;
  food : FoodFactors;
  carbon : CarbonFactors
}.

Definition get_oahu_environmental_factors : EnvironmentalFactors := {|
  transport := {|
    traffic_congestion_factor := 0.8;
    public_transport_quality := 0.6;
    ev_grid_impact := 0.7;
    avg_commute_distance := 11.1 |};
  energy := {|
    electricity_cost := 0.34;
    renewable_percentage := 0.35;
    fossil_fuel_dependency := 0.65;
    solar_potential := 0.9 |};
  water := {|
    freshwater_scarcity := 0.7;
    rainfall_variation := 0.7;
    groundwater_stress := 0.6;
    avg_consumption := 115 |};
  waste := {|
    limited_landfill_space := 0.8;
    recycling_infrastructure := 0.5;
    marine_debris_impact := 0.9;
    waste_to_energy := 0.7 |};
  food := {|
    import_dependency := 0.85;
    local_agriculture_capacity := 0.3;
    fishing_sustainability := 0.6;
    food_price_factor := 1.4 |};
  carbon := {|
    island_multiplier := 1.2;
    tourism_impact := 0.3;
    baseline_emissions := 16.9 |}
|}.

(** The dictionary returned by [calculate_impact]. *)
Record ImpactResult : Type := {
  overall_score : Z;
  transport_score : Z;
  energy_score : Z;
  water_score : Z;
  waste_score : Z;
  food_score : Z;
  carbon_footprint : Q;
  water_usage : Z;
  waste_generation : Z;
  impact_breakdown : dict Q
}.

(** ** Category calculators *)

Definition car_multipliers : dict Q :=
  [ ("Electric vehicle", 0.3);
    ("Hybrid vehicle", 0.6);
    ("Small gas car (30+ mpg)", 1.0);
    ("Medium gas car (20-30 mpg)", 1.5);
    ("Large gas car/SUV/truck (under 20 mpg)", 2.0) ].

Definition calculate_transport_impact
    (user_data : UserProfile) (oahu_factors : EnvironmentalFactors) : result Z :=
  let base_score := 100 in
  let car_usage := car_usage user_data in
  let car_type := car_type user_data in
  multiplier <- getitem car_multipliers car_type ;;
  let car_impact := car_usage * multiplier * 0.1 in
  let base_score := base_score - car_impact in
  let public_transport_usage := public_transport_usage user_data in
  let public_transport_benefit := Qmin 25 (public_transport_usage * 1.5) in
  let base_score := base_score + public_transport_benefit in
  let flight_hours := flight_hours user_data in
  let flight_impact := flight_hours * 0.5 in
  let base_score := base_score - flight_impact in
  let base_score :=
    if gtb car_usage 0
       && negb (contains ["Electric vehicle"; "Hybrid vehicle"] car_type)
    then base_score - traffic_congestion_factor (transport oahu_factors) * 5
    else base_score in
  Ok (Z.max 0 (Z.min 100 (round base_score))).

Definition calculate_energy_impact
    (user_data : UserProfile) (oahu_factors : EnvironmentalFactors) : result Z :=
  let base_score := 80 in
  let electricity_bill := electricity_bill user_data in
  let household_size := inject_Z (household_size user_data) in
  per_person_electricity <- div electricity_bill household_size ;;
  let base_score :=
    if ltb per_person_electricity 50 then base_score + 15
    else if ltb per_person_electricity 75 then base_score + 10
    else if ltb per_person_electricity 100 then base_score + 5
    else if gtb per_person_electricity 150 then base_score - 10
    else if gtb per_person_electricity 125 then base_score - 5
    else base_score in
  let base_score :=
    if String.eqb (renewable_energy user_data) "Yes - solar panels"
    then base_score + 20
    else if String.eqb (renewable_energy user_data) "Yes - other"
    then base_score + 15
    else base_score in
  let ac_hours := air_conditioning user_data in
  let ac_impact := ac_hours * 1.2 in
  let base_score := base_score - ac_impact in
  let base_score := base_score - fossil_fuel_dependency (energy oahu_factors) * 5 in
  Ok (Z.max 0 (Z.min 100 (round base_score))).

Definition calculate_water_impact
    (user_data : UserProfile) (oahu_factors : EnvironmentalFactors) : result Z :=
  let base_score := 75 in
  let shower_length := shower_length user_data in
  let shower_frequency := shower_frequency user_data in
  let shower_impact := shower_length * shower_frequency * 0.2 in
  let base_score := base_score - shower_impact in
  let conservation_measures := water_conservation user_data in
  let base_score :=
    if negb (contains conservation_measures "None of the above")
    then base_score + inject_Z (Z.of_nat (List.length conservation_measures)) * 6
    else base_score in
  let base_score := base_score - freshwater_scarcity (water oahu_factors) * 5 in
  Ok (Z.max 0 (Z.min 100 (round base_score))).

Definition recycling_score_map : dict Q :=
  [ ("Never", 0); ("Rarely", 5); ("Sometimes", 10);
    ("Often", 15); ("Always", 20) ].

Definition plastic_score_map : dict Q :=
  [ ("Never", 20); ("Rarely", 15); ("Sometimes", 5);
    ("Often", -5); ("Always", -15) ].

Definition calculate_waste_impact
    (user_data : UserProfile) (oahu_factors : EnvironmentalFactors) : result Z :=
  let base_score := 60 in
  recycling <- getitem recycling_score_map (recycling_habit user_data) ;;
  let base_score := base_score + recycling in
  let base_score := if composting user_data then base_score + 15 else base_score in
  plastic <- getitem plastic_score_map (single_use_plastics user_data) ;;
  let base_score := base_score + plastic in
  let local_food_pct := local_food user_data in
  let base_score := base_score + local_food_pct * 0.1 in
  let base_score := base_score - limited_landfill_space (waste oahu_factors) * 5 in
  Ok (Z.max 0 (Z.min 100 (round base_score))).

Definition diet_score_map : dict Q :=
  [ ("Vegan", 40);
    ("Vegetarian", 30);
    ("Pescatarian", 20);
    ("Flexitarian (mostly plant-based with occasional meat)", 15);
    ("Omnivore (regular meat consumption)", 0) ].

Definition calculate_food_impact
    (user_data : UserProfile) (oahu_factors : EnvironmentalFactors) : result Z :=
  let base_score := 50 in
  diet <- getitem diet_score_map (diet_type user_data) ;;
  let base_score := base_score + diet in
  let local_food_pct := local_food user_data in
  let base_score := base_score + local_food_pct * 0.15 in
  let meals_out := meals_out user_data in
  let base_score := base_score - meals_out * 0.5 in
  let base_score := base_score - import_dependency (food oahu_factors) * 5 in
  Ok (Z.max 0 (Z.min 100 (round base_score))).

(** ** Physical estimators *)

Definition car_emissions : dict Q :=
  [ ("Electric vehicle", 0.1);
    ("Hybrid vehicle", 0.2);
    ("Small gas car (30+ mpg)", 0.3);
    ("Medium gas car (20-30 mpg)", 0.4);
    ("Large gas car/SUV/truck (under 20 mpg)", 0.6) ].

Definition diet_emissions : dict Q :=
  [ ("Vegan", 1.5);
    ("Vegetarian", 2.0);
    ("Pescatarian", 2.5);
    ("Flexitarian (mostly plant-based with occasional meat)", 3.0);
    ("Omnivore (regular meat consumption)", 4.0) ].

Definition calculate_carbon_footprint
    (user_data : UserProfile) (oahu_factors : EnvironmentalFactors) : result Q :=
  let carbon_footprint := 0 in
  let miles_per_year := car_usage user_data * 52 in
  emission <- getitem car_emissions (car_type user_data) ;;
  let carbon_footprint := carbon_footprint + miles_per_year * emission / 1000 in
  let carbon_footprint := carbon_footprint + flight_hours user_data * 0.2 in
  let carbon_footprint := carbon_footprint + (electricity_bill user_data / 100) * 0.8 in
  let carbon_footprint :=
    if String.eqb (renewable_energy user_data) "Yes - solar panels"
    then carbon_footprint - 2.0
    else if String.eqb (renewable_energy user_data) "Yes - other"
    then carbon_footprint - 1.0
    else carbon_footprint in
  diet <- getitem diet_emissions (diet_type user_data) ;;
  let carbon_footprint := carbon_footprint + diet in
  let carbon_footprint := carbon_footprint - (local_food user_data / 100) * 0.5 in
  let carbon_footprint :=
    if String.eqb (recycling_habit user_data) "Always"
    then carbon_footprint - 0.5
    else if String.eqb (recycling_habit user_data) "Often"
    then carbon_footprint - 0.3
    else carbon_footprint in
  let carbon_footprint :=
    if composting user_data then carbon_footprint - 0.3 else carbon_footprint in
  let carbon_footprint := carbon_footprint * island_multiplier (carbon oahu_factors) in
  let carbon_footprint := carbon_footprint + 5.0 in
  Ok (round1 carbon_footprint).

Definition calculate_water_usage
    (user_data : UserProfile) (oahu_factors : EnvironmentalFactors) : Z :=
  let water_usage := 0 in
  let shower_gallons := shower_length user_data * 2.5 in
  let shower_daily := (shower_gallons * shower_frequency user_data) / 7 in
  let water_usage := water_usage + shower_daily in
  let base_water := 30 in
  let water_usage := water_usage + base_water * inject_Z (household_size user_data) in
  let conservation_measures := water_conservation user_data in
  let water_usage :=
    if contains conservation_measures "Low-flow showerheads/faucets"
    then water_usage * 0.8 else water_usage in
  let water_usage :=
    if contains conservation_measures "Dual-flush toilets"
    then water_usage * 0.9 else water_usage in
  let water_usage :=
    if contains conservation_measures "Drought-resistant landscaping"
    then water_usage - 10 else water_usage in
  round water_usage.

Definition calculate_waste_generation
    (user_data : UserProfile) (oahu_factors : EnvironmentalFactors) : Z :=
  let base_waste := 4.5 * 7 * inject_Z (household_size user_data) in
  let base_waste :=
    if String.eqb (recycling_habit user_data) "Always" then base_waste * 0.6
    else if String.eqb (recycling_habit user_data) "Often" then base_waste * 0.7
    else if String.eqb (recycling_habit user_data) "Sometimes" then base_waste * 0.85
    else base_waste in
  let base_waste := if composting user_data then base_waste * 0.7 else base_waste in
  let base_waste :=
    if String.eqb (single_use_plastics user_data) "Always" then base_waste * 1.2
    else if String.eqb (single_use_plastics user_data) "Never" then base_waste * 0.8
    else base_waste in
  round base_waste.

(** ** Aggregator *)

(** The [weights] dictionary of [calculate_impact]; its five keys are fixed
    literals, so it is a record. *)
Record Weights : Type := {
  w_transport : Q;
  w_energy : Q;
  w_water : Q;
  w_waste : Q;
  w_food : Q
}.

Definition weights : Weights := {|
  w_transport := 0.25;
  w_energy := 0.25;
  w_water := 0.2;
  w_waste := 0.15;
  w_food := 0.15
|}.

Definition calculate_impact (user_data : UserProfile) : result ImpactResult :=
  let oahu_factors := get_oahu_environmental_factors in
  transport_score <- calculate_transport_impact user_data oahu_factors ;;
  energy_score <- calculate_energy_impact user_data oahu_factors ;;
  water_score <- calculate_water_impact user_data oahu_factors ;;
  waste_score <- calculate_waste_impact user_data oahu_factors ;;
  food_score <- calculate_food_impact user_data oahu_factors ;;
  carbon_footprint <- calculate_carbon_footprint user_data oahu_factors ;;
  let water_usage := calculate_water_usage user_data oahu_factors in
  let waste_generation := calculate_waste_generation user_data oahu_factors in
  let overall_score :=
    inject_Z transport_score * w_transport weights +
    inject_Z energy_score * w_energy weights +
    inject_Z water_score * w_water weights +
    inject_Z waste_score * w_waste weights +
    inject_Z food_score * w_food weights in
  let overall_score := round overall_score in
  b_transport <- div (w_transport weights * inject_Z transport_score) (inject_Z overall_score) ;;
  b_energy <- div (w_energy weights * inject_Z energy_score) (inject_Z overall_score) ;;
  b_water <- div (w_water weights * inject_Z water_score) (inject_Z overall_score) ;;
  b_waste <- div (w_waste weights * inject_Z waste_score) (inject_Z overall_score) ;;
  b_food <- div (w_food weights * inject_Z food_score) (inject_Z overall_score) ;;
  Ok {|
    overall_score := overall_score;
    transport_score := transport_score;
    energy_score := energy_score;
    water_score := water_score;
    waste_score := waste_score;
    food_score := food_score;
    carbon_footprint := carbon_footprint;
    water_usage := water_usage;
    waste_generation := waste_generation;
    impact_breakdown :=
      [ ("transport", b_transport); ("energy", b_energy); ("water", b_water);
        ("waste", b_waste); ("food", b_food) ]
  |}.

(** ** Improvement-area selection *)

(** The list [areas_for_improvement] built at the head of
    [get_personalized_recommendations] from the five scores of
    [impact_results]. *)
Definition areas_for_improvement (impact_results : ImpactResult) : list string :=
  let areas : list string := [] in
  let areas :=
    if (transport_score impact_results <? 60)%Z then (areas ++ ["transportation"])%list else areas in
  let areas :=
    if (energy_score impact_results <? 60)%Z then (areas ++ ["energy"])%list else areas in
  let areas :=
    if (water_score impact_results <? 60)%Z then (areas ++ ["water"])%list else areas in
  let areas :=
    if (waste_score impact_results <? 60)%Z then (areas ++ ["waste"])%list else areas in
  let areas :=
    if (food_score impact_results <? 60)%Z then (areas ++ ["food"])%list else areas in
  match areas with
  | [] =>
      let lowest_score :=
        Z.min (transport_score impact_results)
          (Z.min (energy_score impact_results)
             (Z.min (water_score impact_results)
                (Z.min (waste_score impact_results) (food_score impact_results)))) in
      if (lowest_score =? transport_score impact_results)%Z then (areas ++ ["transportation"])%list
      else if (lowest_score =? energy_score impact_results)%Z then (areas ++ ["energy"])%list
      else if (lowest_score =? water_score impact_results)%Z then (areas ++ ["water"])%list
      else if (lowest_score =? waste_score impact_results)%Z then (areas ++ ["waste"])%list
      else if (lowest_score =? food_score impact_results)%Z then (areas ++ ["food"])%list
      else areas
  | _ :: _ => areas
  end.

(** ** Valid profiles and field updates *)

Definition car_types : list string :=
  [ "Electric vehicle"; "Hybrid vehicle"; "Small gas car (30+ mpg)";
    "Medium gas car (20-30 mpg)"; "Large gas car/SUV/truck (under 20 mpg)" ].

Definition renewable_options : list string :=
  [ "No"; "Yes - solar panels"; "Yes - other" ].

Definition conservation_options : list string :=
  [ "Low-flow showerheads/faucets"; "Dual-flush toilets"; "Rainwater collection";
    "Drought-resistant landscaping"; "None of the above" ].

Definition frequency_options : list string :=
  [ "Never"; "Rarely"; "Sometimes"; "Often"; "Always" ].

Definition diet_types : list string :=
  [ "Vegan"; "Vegetarian"; "Pescatarian";
    "Flexitarian (mostly plant-based with occasional meat)";
    "Omnivore (regular meat consumption)" ].

(** A valid [UserProfile]: the ranges of the data model (non-negative
    quantities, [household_size >= 1], [electricity_bill > 0],
    [air_conditioning] within 0..24, [local_food] within 0..100) and
    enumerated answers among the options offered by the form. *)
Definition valid_profile (p : UserProfile) : bool :=
  Qle_bool 0 (car_usage p)
  && contains car_types (car_type p)
  && Qle_bool 0 (public_transport_usage p)
  && Qle_bool 0 (flight_hours p)
  && (1 <=? household_size p)%Z
  && ltb 0 (electricity_bill p)
  && contains renewable_options (renewable_energy p)
  && Qle_bool 0 (air_conditioning p) && Qle_bool (air_conditioning p) 24
  && Qle_bool 0 (shower_length p)
  && Qle_bool 0 (shower_frequency p)
  && forallb (contains conservation_options) (water_conservation p)
  && contains frequency_options (recycling_habit p)
  && contains frequency_options (single_use_plastics p)
  && Qle_bool 0 (local_food p) && Qle_bool (local_food p) 100
  && contains diet_types (diet_type p)
  && Qle_bool 0 (meals_out p).

(** [valid_profile], unpacked into propositions. *)
Record Valid (p : UserProfile) : Prop := {
  v_car_usage : 0 <= car_usage p;
  v_car_type : contains car_types (car_type p) = true;
  v_public_transport : 0 <= public_transport_usage p;
  v_flight_hours : 0 <= flight_hours p;
  v_household_size : (1 <= household_size p)%Z;
  v_electricity_bill : 0 < electricity_bill p;
  v_renewable_energy : contains renewable_options (renewable_energy p) = true;
  v_air_conditioning : 0 <= air_conditioning p <= 24;
  v_shower_length : 0 <= shower_length p;
  v_shower_frequency : 0 <= shower_frequency p;
  v_recycling_habit : contains frequency_options (recycling_habit p) = true;
  v_single_use_plastics : contains frequency_options (single_use_plastics p) = true;
  v_local_food : 0 <= local_food p <= 100;
  v_diet_type : contains diet_types (diet_type p) = true;
  v_meals_out : 0 <= meals_out p
}.


(** The profile [p] with one answer replaced. *)
Definition set_car_usage (p : UserProfile) (u : Q) : UserProfile := {|
  car_usage := u;
  car_type := car_type p;
  public_transport_usage := public_transport_usage p;
  flight_hours := flight_hours p;
  household_size := household_size p;
  electricity_bill := electricity_bill p;
  renewable_energy := renewable_energy p;
  air_conditioning := air_conditioning p;
  shower_length := shower_length p;
  shower_frequency := shower_frequency p;
  water_conservation := water_conservation p;
  recycling_habit := recycling_habit p;
  composting := composting p;
  single_use_plastics := single_use_plastics p;
  local_food := local_food p;
  diet_type := diet_type p;
  meals_out := meals_out p
|}.

Definition set_renewable_energy (p : UserProfile) (v : string) : UserProfile := {|
  car_usage := car_usage p;
  car_type := car_type p;
  public_transport_usage := public_transport_usage p;
  flight_hours := flight_hours p;
  household_size := household_size p;
  electricity_bill := electricity_bill p;
  renewable_energy := v;
  air_conditioning := air_conditioning p;
  shower_length := shower_length p;
  shower_frequency := shower_frequency p;
  water_conservation := water_conservation p;
  recycling_habit := recycling_habit p;
  composting := composting p;
  single_use_plastics := single_use_plastics p;
  local_food := local_food p;
  diet_type := diet_type p;
  meals_out := meals_out p
|}.

Definition set_household_size (p : UserProfile) (n : Z) : UserProfile := {|
  car_usage := car_usage p;
  car_type := car_type p;
  public_transport_usage := public_transport_usage p;
  flight_hours := flight_hours p;
  household_size := n;
  electricity_bill := electricity_bill p;
  renewable_energy := renewable_energy p;
  air_conditioning := air_conditioning p;
  shower_length := shower_length p;
  shower_frequency := shower_frequency p;
  water_conservation := water_conservation p;
  recycling_habit := recycling_habit p;
  composting := composting p;
  single_use_plastics := single_use_plastics p;
  local_food := local_food p;
  diet_type := diet_type p;
  meals_out := meals_out p
|}.

(** The answers the form shows before the user changes anything. *)
Definition form_defaults : UserProfile := {|
  car_usage := 100;
  car_type := "Electric vehicle";
  public_transport_usage := 0;
  flight_hours := 6;
  household_size := 2;
  electricity_bill := 200;
  renewable_energy := "No";
  air_conditioning := 6;
  shower_length := 8;
  shower_frequency := 7;
  water_conservation := [];
  recycling_habit := "Never";
  composting := false;
  single_use_plastics := "Never";
  local_food := 30;
  diet_type := "Vegan";
  meals_out := 4
|}.

(** [form_defaults] with a small electricity bill and no air conditioning. *)
Definition frugal_household : UserProfile := {|
  car_usage := 100;
  car_type := "Electric vehicle";
  public_transport_usage := 0;
  flight_hours := 6;
  household_size := 2;
  electricity_bill := 50;
  renewable_energy := "No";
  air_conditioning := 0;
  shower_length := 8;
  shower_frequency := 7;
  water_conservation := [];
  recycling_habit := "Never";
  composting := false;
  single_use_plastics := "Never";
  local_food := 30;
  diet_type := "Vegan";
  meals_out := 4
|}.

(** A record outside the valid ranges ([air_conditioning] above 24,
    [local_food] below 0) on which every category score is clamped to 0. *)
Definition all_zero_profile : UserProfile := {|
  car_usage := 500;
  car_type := "Large gas car/SUV/truck (under 20 mpg)";
  public_transport_usage := 0;
  flight_hours := 6;
  household_size := 1;
  electricity_bill := 500;
  renewable_energy := "No";
  air_conditioning := 100;
  shower_length := 30;
  shower_frequency := 14;
  water_conservation := ["None of the above"];
  recycling_habit := "Never";
  composting := false;
  single_use_plastics := "Always";
  local_food := -500;
  diet_type := "Omnivore (regular meat consumption)";
  meals_out := 21
|}.

(** ** Specification-side definitions *)

(** The weighted sum of five category scores, before rounding. *)
Definition weighted (t e w wa f : Z) : Q :=
  inject_Z t * w_transport weights +
  inject_Z e * w_energy weights +
  inject_Z w * w_water weights +
  inject_Z wa * w_waste weights +
  inject_Z f * w_food weights.

Definition weighted_sum (r : ImpactResult) : Q :=
  weighted (transport_score r) (energy_score r) (water_score r)
    (waste_score r) (food_score r).

(** The sum of the values of a dictionary, [sum(d.values())]. *)
Definition sum_values (d : dict Q) : Q :=
  fold_left (fun acc kv => acc + snd kv) d 0.







(** The selector as the specification words it: the categories in their
    fixed order with the labels the code appends, those scoring below 60,
    and the first one holding the minimum. *)
Definition category_scores (r : ImpactResult) : list (string * Z) :=
  [ ("transportation", transport_score r); ("energy", energy_score r);
    ("water", water_score r); ("waste", waste_score r); ("food", food_score r) ].

Definition below_60 (r : ImpactResult) : list string :=
  map fst (filter (fun kv => (snd kv <? 60)%Z) (category_scores r)).

Definition lowest_score (r : ImpactResult) : Z :=
  fold_right Z.min (transport_score r) (map snd (category_scores r)).

Definition first_lowest (r : ImpactResult) : list string :=
  match find (fun kv => (snd kv =? lowest_score r)%Z) (category_scores r) with
  | Some kv => [fst kv]
  | None => []
  end.

Definition areas_spec (r : ImpactResult) : list string :=
  match below_60 r with
  | [] => first_lowest r
  | _ :: _ => below_60 r
  end.

(** ** Utility functions *)

(** [get_score_color(score)], called with the integer [overall_score]. *)
Definition get_score_color (score : Z) : string :=
  if (score >=? 80)%Z then "#4CAF50"
  else if (score >=? 60)%Z then "#8BC34A"
  else if (score >=? 40)%Z then "#FFC107"
  else if (score >=? 20)%Z then "#FF9800"
  else "#F44336".


(** ** Chart data and the results page *)

(** The banner [results_page] shows under the overall score: the name of
    the Streamlit call made by the [if]/[elif] chain on [overall_score]. *)
Definition score_banner (overall_score : Z) : string :=
  if (overall_score >=? 80)%Z then "success"
  else if (overall_score >=? 60)%Z then "info"
  else if (overall_score >=? 40)%Z then "warning"
  else "error".

(** [create_carbon_breakdown_chart]: the [names] and [values] handed to
    the pie chart, paired in order. *)
Definition create_carbon_breakdown_chart
    (impact_results : ImpactResult) (user_data : UserProfile) : list (string * Q) :=
  let transport_pct := 0.30 in
  let energy_pct := 0.25 in
  let food_pct := 0.25 in
  let waste_pct := 0.15 in
  let other_pct := 0.05 in
  let '(transport_pct, energy_pct, other_pct) :=
    if contains ["Electric vehicle"; "Hybrid vehicle"] (car_type user_data)
    then (transport_pct - 0.1, energy_pct + 0.05, other_pct + 0.05)
    else (transport_pct, energy_pct, other_pct) in
  let '(transport_pct, other_pct, waste_pct) :=
    if gtb (flight_hours user_data) 10
    then (transport_pct + 0.1, other_pct - 0.05, waste_pct - 0.05)
    else (transport_pct, other_pct, waste_pct) in
  let '(food_pct, transport_pct, energy_pct) :=
    if contains ["Vegan"; "Vegetarian"] (diet_type user_data)
    then (food_pct - 0.1, transport_pct + 0.05, energy_pct + 0.05)
    else (food_pct, transport_pct, energy_pct) in
  [ ("Transportation", transport_pct * carbon_footprint impact_results);
    ("Energy Use", energy_pct * carbon_footprint impact_results);
    ("Food", food_pct * carbon_footprint impact_results);
    ("Waste", waste_pct * carbon_footprint impact_results);
    ("Other", other_pct * carbon_footprint impact_results) ].

(** ** More field updates *)

Definition set_public_transport_usage (p : UserProfile) (v : Q) : UserProfile := {|
  car_usage := car_usage p;
  car_type := car_type p;
  public_transport_usage := v;
  flight_hours := flight_hours p;
  household_size := household_size p;
  electricity_bill := electricity_bill p;
  renewable_energy := renewable_energy p;
  air_conditioning := air_conditioning p;
  shower_length := shower_length p;
  shower_frequency := shower_frequency p;
  water_conservation := water_conservation p;
  recycling_habit := recycling_habit p;
  composting := composting p;
  single_use_plastics := single_use_plastics p;
  local_food := local_food p;
  diet_type := diet_type p;
  meals_out := meals_out p
|}.

Definition set_electricity_bill (p : UserProfile) (v : Q) : UserProfile := {|
  car_usage := car_usage p;
  car_type := car_type p;
  public_transport_usage := public_transport_usage p;
  flight_hours := flight_hours p;
  household_size := household_size p;
  electricity_bill := v;
  renewable_energy := renewable_energy p;
  air_conditioning := air_conditioning p;
  shower_length := shower_length p;
  shower_frequency := shower_frequency p;
  water_conservation := water_conservation p;
  recycling_habit := recycling_habit p;
  composting := composting p;
  single_use_plastics := single_use_plastics p;
  local_food := local_food p;
  diet_type := diet_type p;
  meals_out := meals_out p
|}.

Definition set_water_conservation (p : UserProfile) (v : list string) : UserProfile := {|
  car_usage := car_usage p;
  car_type := car_type p;
  public_transport_usage := public_transport_usage p;
  flight_hours := flight_hours p;
  household_size := household_size p;
  electricity_bill := electricity_bill p;
  renewable_energy := renewable_energy p;
  air_conditioning := air_conditioning p;
  shower_length := shower_length p;
  shower_frequency := shower_frequency p;
  water_conservation := v;
  recycling_habit := recycling_habit p;
  composting := composting p;
  single_use_plastics := single_use_plastics p;
  local_food := local_food p;
  diet_type := diet_type p;
  meals_out := meals_out p
|}.

Definition set_local_food (p : UserProfile) (v : Q) : UserProfile := {|
  car_usage := car_usage p;
  car_type := car_type p;
  public_transport_usage := public_transport_usage p;
  flight_hours := flight_hours p;
  household_size := household_size p;
  electricity_bill := electricity_bill p;
  renewable_energy := renewable_energy p;
  air_conditioning := air_conditioning p;
  shower_length := shower_length p;
  shower_frequency := shower_frequency p;
  water_conservation := water_conservation p;
  recycling_habit := recycling_habit p;
  composting := composting p;
  single_use_plastics := single_use_plastics p;
  local_food := v;
  diet_type := diet_type p;
  meals_out := meals_out p
|}.

(** Records with answers the form does not offer. *)
Definition unknown_vehicle : UserProfile := {|
  car_usage := 0;
  car_type := "Bicycle";
  public_transport_usage := 0;
  flight_hours := 0;
  household_size := 0;
  electricity_bill := 50;
  renewable_energy := "No";
  air_conditioning := 0;
  shower_length := 5;
  shower_frequency := 7;
  water_conservation := [];
  recycling_habit := "Always";
  composting := true;
  single_use_plastics := "Never";
  local_food := 100;
  diet_type := "Vegan";
  meals_out := 0
|}.

Definition unknown_habits : UserProfile := {|
  car_usage := 100;
  car_type := "Hybrid vehicle";
  public_transport_usage := 0;
  flight_hours := 6;
  household_size := 2;
  electricity_bill := 200;
  renewable_energy := "No";
  air_conditioning := 6;
  shower_length := 8;
  shower_frequency := 7;
  water_conservation := [];
  recycling_habit := "Daily";
  composting := false;
  single_use_plastics := "Never";
  local_food := 30;
  diet_type := "Keto";
  meals_out := 4
|}.

(** A result whose five scores are all at least 60, energy lowest. *)
Definition sample_result : ImpactResult := {|
  overall_score := 75;
  transport_score := 70;
  energy_score := 61;
  water_score := 80;
  waste_score := 90;
  food_score := 75;
  carbon_footprint := 10.6;
  water_usage := 80;
  waste_generation := 50;
  impact_breakdown := []
|}.


(** * Properties *)

(** ** Rounding *)

Section RoundFacts.

Lemma inject_Z_succ (n : Z) : inject_Z (n + 1) == inject_Z n + 1.
Proof. rewrite inject_Z_plus. reflexivity. Qed.

Lemma floor_frac (x : Q) :
  0 <= x - inject_Z (Qfloor x) /\ x - inject_Z (Qfloor x) < 1.
Proof.
  pose proof (Qfloor_le x) as Hlo.
  pose proof (Qlt_floor x) as Hhi.
  rewrite inject_Z_succ in Hhi.
  split; lra.
Qed.

Lemma round_comp (x y : Q) : x == y -> round x = round y.
Proof.
  intros Hxy. unfold round.
  rewrite (Qfloor_comp _ _ Hxy).
  assert (Hc : (x - inject_Z (Qfloor y) ?= 1 # 2) = (y - inject_Z (Qfloor y) ?= 1 # 2)).
  { apply Qcompare_comp; [rewrite Hxy|]; reflexivity. }
  rewrite Hc. reflexivity.
Qed.

#[global] Instance round_Proper : Proper (Qeq ==> eq) round.
Proof. intros x y Hxy. apply round_comp, Hxy. Qed.

Lemma round_near (x : Q) :
  inject_Z (round x) - (1 # 2) <= x /\ x <= inject_Z (round x) + (1 # 2).
Proof.
  destruct (floor_frac x) as [Hlo Hhi].
  unfold round.
  destruct (Qcompare_spec (x - inject_Z (Qfloor x)) (1 # 2)) as [He | Hl | Hg].
  - destruct (Z.even (Qfloor x)); [|rewrite inject_Z_succ]; split; lra.
  - split; lra.
  - rewrite inject_Z_succ. split; lra.
Qed.

Lemma round_inject_Z (n : Z) : round (inject_Z n) = n.
Proof.
  unfold round. rewrite Qfloor_Z.
  destruct (Qcompare_spec (inject_Z n - inject_Z n) (1 # 2)) as [He | Hl | Hg];
    [exfalso; lra | reflexivity | exfalso; lra].
Qed.

Lemma inject_Z_lt_succ (a b : Z) : (a < b)%Z -> inject_Z a + 1 <= inject_Z b.
Proof.
  intros Hab. rewrite <- inject_Z_succ. rewrite <- Zle_Qle. lia.
Qed.

Lemma round_mono (x y : Q) : x <= y -> (round x <= round y)%Z.
Proof.
  intros Hxy.
  destruct (Z_le_gt_dec (round x) (round y)) as [Hle | Hgt]; [exact Hle|].
  exfalso.
  pose proof (round_near x) as [Hx _].
  pose proof (round_near y) as [_ Hy].
  assert (Hstep : inject_Z (round y) + 1 <= inject_Z (round x))
    by (apply inject_Z_lt_succ; lia).
  assert (Heq : x == y) by lra.
  rewrite (round_comp _ _ Heq) in Hgt. lia.
Qed.

Lemma round_ge (n : Z) (x : Q) : inject_Z n <= x -> (n <= round x)%Z.
Proof.
  intros H. rewrite <- (round_inject_Z n). apply round_mono, H.
Qed.

Lemma round_le (n : Z) (x : Q) : x <= inject_Z n -> (round x <= n)%Z.
Proof.
  intros H. rewrite <- (round_inject_Z n). apply round_mono, H.
Qed.



End RoundFacts.


(** ** Booleans, lookups and divisions *)

Lemma contains_In (l : list string) (k : string) : contains l k = true -> In k l.
Proof.
  induction l as [|x l IH]; simpl; [discriminate|].
  intros H. apply orb_true_iff in H. destruct H as [H | H].
  - left. apply String.eqb_eq, H.
  - right. apply IH, H.
Qed.

Lemma ltb_lt (a b : Q) : ltb a b = true <-> a < b.
Proof.
  unfold ltb. rewrite negb_true_iff. split.
  - intros H. apply Qnot_le_lt. intros Hle. apply Qle_bool_iff in Hle. congruence.
  - intros H. destruct (Qle_bool b a) eqn:E; [|reflexivity].
    apply Qle_bool_iff in E. lra.
Qed.

Lemma ltb_ge (a b : Q) : ltb a b = false <-> b <= a.
Proof.
  unfold ltb. rewrite negb_false_iff. apply Qle_bool_iff.
Qed.

Lemma gtb_gt (a b : Q) : gtb a b = true <-> b < a.
Proof. unfold gtb. apply ltb_lt. Qed.

Lemma gtb_le (a b : Q) : gtb a b = false <-> a <= b.
Proof. unfold gtb. apply ltb_ge. Qed.

Lemma div_ok (a b : Q) : ~ b == 0 -> div a b = Ok (a / b).
Proof.
  intros Hb. unfold div. destruct (Qeq_bool b 0) eqn:E; [|reflexivity].
  apply Qeq_bool_iff in E. contradiction.
Qed.

Lemma div_zero (a b : Q) : b == 0 -> div a b = Raise ZeroDivisionError.
Proof.
  intros Hb. unfold div. apply Qeq_bool_iff in Hb. rewrite Hb. reflexivity.
Qed.

Lemma inject_Z_nonzero (n : Z) : n <> 0%Z -> ~ inject_Z n == 0.
Proof.
  intros Hn H. apply Hn. apply inject_Z_injective. exact H.
Qed.

Lemma clamp_range (n : Z) : (0 <= Z.max 0 (Z.min 100 n) <= 100)%Z.
Proof. lia. Qed.

(** Case analysis on membership in a list of literal options. *)
Ltac options H :=
  apply contains_In in H; simpl in H;
  repeat (destruct H as [H | H]; [symmetry in H; subst|]); [..|contradiction].

Lemma car_multipliers_total (k : string) :
  contains car_types k = true ->
  exists m, getitem car_multipliers k = Ok m /\ 0 < m.
Proof.
  intros H. options H; (eexists; split; [reflexivity | lra]).
Qed.

Lemma car_emissions_total (k : string) :
  contains car_types k = true ->
  exists m, getitem car_emissions k = Ok m /\ 0 < m.
Proof.
  intros H. options H; (eexists; split; [reflexivity | lra]).
Qed.

Lemma recycling_score_total (k : string) :
  contains frequency_options k = true ->
  exists v, getitem recycling_score_map k = Ok v /\ 0 <= v /\ v <= 20.
Proof.
  intros H. options H; (eexists; split; [reflexivity | lra]).
Qed.

Lemma plastic_score_total (k : string) :
  contains frequency_options k = true ->
  exists v, getitem plastic_score_map k = Ok v /\ -15 <= v /\ v <= 20.
Proof.
  intros H. options H; (eexists; split; [reflexivity | lra]).
Qed.

Lemma diet_score_total (k : string) :
  contains diet_types k = true ->
  exists v, getitem diet_score_map k = Ok v /\ 0 <= v /\ v <= 40.
Proof.
  intros H. options H; (eexists; split; [reflexivity | lra]).
Qed.

Lemma diet_emissions_total (k : string) :
  contains diet_types k = true ->
  exists v, getitem diet_emissions k = Ok v /\ 1.5 <= v.
Proof.
  intros H. options H; (eexists; split; [reflexivity | lra]).
Qed.

(** ** Validity, unpacked *)

Lemma valid_profile_Valid (p : UserProfile) : valid_profile p = true -> Valid p.
Proof.
  unfold valid_profile. intros H.
  repeat (apply andb_true_iff in H; destruct H as [H ?]).
  repeat match goal with
  | H : Qle_bool _ _ = true |- _ => apply Qle_bool_iff in H
  | H : ltb _ _ = true |- _ => apply ltb_lt in H
  | H : (_ <=? _)%Z = true |- _ => apply Z.leb_le in H
  end.
  constructor; auto.
Qed.


(** ** The calculators return clamped scores *)

Ltac clamped H := injection H as <-; apply clamp_range.

Lemma transport_range p f s :
  calculate_transport_impact p f = Ok s -> (0 <= s <= 100)%Z.
Proof.
  unfold calculate_transport_impact.
  destruct (getitem car_multipliers (car_type p)); cbn [bind]; intros H;
    [clamped H | discriminate].
Qed.

Lemma energy_range p f s :
  calculate_energy_impact p f = Ok s -> (0 <= s <= 100)%Z.
Proof.
  unfold calculate_energy_impact.
  destruct (div _ _); cbn [bind]; intros H; [clamped H | discriminate].
Qed.

Lemma water_range p f s :
  calculate_water_impact p f = Ok s -> (0 <= s <= 100)%Z.
Proof.
  unfold calculate_water_impact. intros H. clamped H.
Qed.

Lemma waste_range p f s :
  calculate_waste_impact p f = Ok s -> (0 <= s <= 100)%Z.
Proof.
  unfold calculate_waste_impact.
  destruct (getitem recycling_score_map _); cbn [bind]; [|discriminate].
  destruct (getitem plastic_score_map _); cbn [bind]; intros H;
    [clamped H | discriminate].
Qed.

Lemma food_range p f s :
  calculate_food_impact p f = Ok s -> (0 <= s <= 100)%Z.
Proof.
  unfold calculate_food_impact.
  destruct (getitem diet_score_map _); cbn [bind]; intros H;
    [clamped H | discriminate].
Qed.

(** ** The calculators return on valid answers *)

Lemma transport_total p f :
  contains car_types (car_type p) = true ->
  exists s, calculate_transport_impact p f = Ok s.
Proof.
  intros H. destruct (car_multipliers_total _ H) as (m & Hm & _).
  unfold calculate_transport_impact. rewrite Hm. cbn [bind]. eexists. reflexivity.
Qed.

Lemma energy_total p f :
  household_size p <> 0%Z ->
  exists s, calculate_energy_impact p f = Ok s.
Proof.
  intros H. unfold calculate_energy_impact.
  rewrite div_ok by (apply inject_Z_nonzero, H).
  cbn [bind]. eexists. reflexivity.
Qed.

Lemma energy_zero_division p f :
  household_size p = 0%Z ->
  calculate_energy_impact p f = Raise ZeroDivisionError.
Proof.
  intros H. unfold calculate_energy_impact. rewrite H.
  rewrite div_zero by reflexivity. reflexivity.
Qed.

Lemma water_total p f : exists s, calculate_water_impact p f = Ok s.
Proof. unfold calculate_water_impact. eexists. reflexivity. Qed.

Lemma food_total p f :
  contains diet_types (diet_type p) = true ->
  exists s, calculate_food_impact p f = Ok s.
Proof.
  intros H. destruct (diet_score_total _ H) as (v & Hv & _).
  unfold calculate_food_impact. rewrite Hv. cbn [bind]. eexists. reflexivity.
Qed.

Lemma carbon_total p f :
  contains car_types (car_type p) = true ->
  contains diet_types (diet_type p) = true ->
  exists c, calculate_carbon_footprint p f = Ok c.
Proof.
  intros Hc Hd.
  destruct (car_emissions_total _ Hc) as (m & Hm & _).
  destruct (diet_emissions_total _ Hd) as (v & Hv & _).
  unfold calculate_carbon_footprint. rewrite Hm, Hv. cbn [bind].
  eexists. reflexivity.
Qed.

(** The waste score on the Oahu table: at least 41 once [local_food] is
    not negative. *)
Lemma waste_at_least_41 p :
  contains frequency_options (recycling_habit p) = true ->
  contains frequency_options (single_use_plastics p) = true ->
  0 <= local_food p ->
  exists s, calculate_waste_impact p get_oahu_environmental_factors = Ok s
            /\ (41 <= s)%Z.
Proof.
  intros Hr Hp Hl.
  destruct (recycling_score_total _ Hr) as (a & Ha & Ha0 & _).
  destruct (plastic_score_total _ Hp) as (b & Hb & Hb0 & _).
  unfold calculate_waste_impact. rewrite Ha, Hb. cbn [bind].
  eexists. split; [reflexivity|].
  match goal with |- (41 <= Z.max 0 (Z.min 100 (round ?x)))%Z =>
    assert (Hx : (41 <= round x)%Z) end.
  { apply round_ge. cbn [waste limited_landfill_space get_oahu_environmental_factors].
    change (inject_Z 41) with 41.
    destruct (composting p); lra. }
  lia.
Qed.

(** ** The aggregator *)

Lemma calculate_impact_unfold p t e w wa f c :
  calculate_transport_impact p get_oahu_environmental_factors = Ok t ->
  calculate_energy_impact p get_oahu_environmental_factors = Ok e ->
  calculate_water_impact p get_oahu_environmental_factors = Ok w ->
  calculate_waste_impact p get_oahu_environmental_factors = Ok wa ->
  calculate_food_impact p get_oahu_environmental_factors = Ok f ->
  calculate_carbon_footprint p get_oahu_environmental_factors = Ok c ->
  calculate_impact p =
    let o := round (weighted t e w wa f) in
    if Qeq_bool (inject_Z o) 0 then Raise ZeroDivisionError
    else Ok {|
      overall_score := o;
      transport_score := t;
      energy_score := e;
      water_score := w;
      waste_score := wa;
      food_score := f;
      carbon_footprint := c;
      water_usage := calculate_water_usage p get_oahu_environmental_factors;
      waste_generation := calculate_waste_generation p get_oahu_environmental_factors;
      impact_breakdown :=
        [ ("transport", w_transport weights * inject_Z t / inject_Z o);
          ("energy", w_energy weights * inject_Z e / inject_Z o);
          ("water", w_water weights * inject_Z w / inject_Z o);
          ("waste", w_waste weights * inject_Z wa / inject_Z o);
          ("food", w_food weights * inject_Z f / inject_Z o) ]
    |}.
Proof.
  intros Ht He Hw Hwa Hf Hc.
  unfold calculate_impact. rewrite Ht, He, Hw, Hwa, Hf, Hc. cbn [bind].
  fold (weighted t e w wa f). unfold div.
  destruct (Qeq_bool (inject_Z (round (weighted t e w wa f))) 0); reflexivity.
Qed.

Lemma weighted_bounds t e w wa f :
  (0 <= t <= 100)%Z -> (0 <= e <= 100)%Z -> (0 <= w <= 100)%Z ->
  (0 <= wa <= 100)%Z -> (0 <= f <= 100)%Z ->
  inject_Z wa * 0.15 <= weighted t e w wa f /\ weighted t e w wa f <= 100.
Proof.
  intros [Ht0 Ht1] [He0 He1] [Hw0 Hw1] [Hwa0 Hwa1] [Hf0 Hf1].
  rewrite Zle_Qle in *. 
  unfold weighted. cbn [weights w_transport w_energy w_water w_waste w_food].
  change (inject_Z 0) with 0 in *. change (inject_Z 100) with 100 in *.
  split; lra.
Qed.

Lemma overall_bounds t e w wa f :
  (0 <= t <= 100)%Z -> (0 <= e <= 100)%Z -> (0 <= w <= 100)%Z ->
  (41 <= wa <= 100)%Z -> (0 <= f <= 100)%Z ->
  (6 <= round (weighted t e w wa f) <= 100)%Z.
Proof.
  intros Ht He Hw Hwa Hf.
  destruct (weighted_bounds t e w wa f) as [Hlo Hhi]; try lia.
  destruct Hwa as [Hwa _]. rewrite Zle_Qle in Hwa. change (inject_Z 41) with 41 in Hwa.
  split.
  - apply round_ge. change (inject_Z 6) with 6. lra.
  - apply round_le. exact Hhi.
Qed.


(** What [calculate_impact] returns once every lookup succeeds, the
    household is not empty and [local_food] is not negative. *)
Lemma impact_returns p :
  contains car_types (car_type p) = true ->
  household_size p <> 0%Z ->
  contains frequency_options (recycling_habit p) = true ->
  contains frequency_options (single_use_plastics p) = true ->
  0 <= local_food p ->
  contains diet_types (diet_type p) = true ->
  exists r,
    calculate_impact p = Ok r
    /\ calculate_transport_impact p get_oahu_environmental_factors = Ok (transport_score r)
    /\ calculate_energy_impact p get_oahu_environmental_factors = Ok (energy_score r)
    /\ calculate_water_impact p get_oahu_environmental_factors = Ok (water_score r)
    /\ calculate_waste_impact p get_oahu_environmental_factors = Ok (waste_score r)
    /\ calculate_food_impact p get_oahu_environmental_factors = Ok (food_score r)
    /\ overall_score r = round (weighted_sum r)
    /\ (6 <= overall_score r <= 100)%Z
    /\ impact_breakdown r =
         [ ("transport", w_transport weights * inject_Z (transport_score r) / inject_Z (overall_score r));
           ("energy", w_energy weights * inject_Z (energy_score r) / inject_Z (overall_score r));
           ("water", w_water weights * inject_Z (water_score r) / inject_Z (overall_score r));
           ("waste", w_waste weights * inject_Z (waste_score r) / inject_Z (overall_score r));
           ("food", w_food weights * inject_Z (food_score r) / inject_Z (overall_score r)) ].
Proof.
  intros Hcar Hhs Hrec Hpl Hlf Hdiet.
  destruct (transport_total p get_oahu_environmental_factors Hcar) as [t Ht].
  destruct (energy_total p get_oahu_environmental_factors Hhs) as [e He].
  destruct (water_total p get_oahu_environmental_factors) as [w Hw].
  destruct (waste_at_least_41 p Hrec Hpl Hlf) as (wa & Hwa & Hwa41).
  destruct (food_total p get_oahu_environmental_factors Hdiet) as [f Hf].
  destruct (carbon_total p get_oahu_environmental_factors Hcar Hdiet) as [c Hc].
  pose proof (transport_range _ _ _ Ht) as Rt.
  pose proof (energy_range _ _ _ He) as Re.
  pose proof (water_range _ _ _ Hw) as Rw.
  pose proof (waste_range _ _ _ Hwa) as Rwa.
  pose proof (food_range _ _ _ Hf) as Rf.
  assert (Ho : (6 <= round (weighted t e w wa f) <= 100)%Z)
    by (apply overall_bounds; lia).
  rewrite (calculate_impact_unfold p t e w wa f c) by assumption.
  cbv zeta.
  destruct (Qeq_bool (inject_Z (round (weighted t e w wa f))) 0) eqn:E.
  - exfalso. apply Qeq_bool_iff in E. revert E. apply inject_Z_nonzero. lia.
  - eexists. split; [reflexivity|]. cbn. repeat split; try assumption; lia.
Qed.


(** ** Scores and overall score on valid profiles *)

Lemma valid_impact_returns p :
  valid_profile p = true ->
  exists r,
    calculate_impact p = Ok r
    /\ calculate_transport_impact p get_oahu_environmental_factors = Ok (transport_score r)
    /\ calculate_energy_impact p get_oahu_environmental_factors = Ok (energy_score r)
    /\ calculate_water_impact p get_oahu_environmental_factors = Ok (water_score r)
    /\ calculate_waste_impact p get_oahu_environmental_factors = Ok (waste_score r)
    /\ calculate_food_impact p get_oahu_environmental_factors = Ok (food_score r)
    /\ overall_score r = round (weighted_sum r)
    /\ (6 <= overall_score r <= 100)%Z
    /\ impact_breakdown r =
         [ ("transport", w_transport weights * inject_Z (transport_score r) / inject_Z (overall_score r));
           ("energy", w_energy weights * inject_Z (energy_score r) / inject_Z (overall_score r));
           ("water", w_water weights * inject_Z (water_score r) / inject_Z (overall_score r));
           ("waste", w_waste weights * inject_Z (waste_score r) / inject_Z (overall_score r));
           ("food", w_food weights * inject_Z (food_score r) / inject_Z (overall_score r)) ].
Proof.
  intros Hv. apply valid_profile_Valid in Hv.
  apply impact_returns.
  - exact (v_car_type p Hv).
  - pose proof (v_household_size p Hv). lia.
  - exact (v_recycling_habit p Hv).
  - exact (v_single_use_plastics p Hv).
  - exact (proj1 (v_local_food p Hv)).
  - exact (v_diet_type p Hv).
Qed.

Lemma getitem_contains {V : Type} (d : dict V) (k : string) (v : V) :
  getitem d k = Ok v -> contains (map fst d) k = true.
Proof.
  induction d as [|[k' v'] d IH]; simpl; [discriminate|].
  destruct (String.eqb k' k); [reflexivity | exact IH].
Qed.

Lemma transport_ok_car_type p f t :
  calculate_transport_impact p f = Ok t -> contains car_types (car_type p) = true.
Proof.
  unfold calculate_transport_impact.
  destruct (getitem car_multipliers (car_type p)) eqn:E; cbn [bind]; [|discriminate].
  intros _. exact (getitem_contains _ _ _ E).
Qed.

Lemma food_ok_diet_type p f s :
  calculate_food_impact p f = Ok s -> contains diet_types (diet_type p) = true.
Proof.
  unfold calculate_food_impact.
  destruct (getitem diet_score_map (diet_type p)) eqn:E; cbn [bind]; [|discriminate].
  intros _. exact (getitem_contains _ _ _ E).
Qed.

Lemma calculate_impact_empty_household p :
  contains car_types (car_type p) = true ->
  household_size p = 0%Z ->
  calculate_impact p = Raise ZeroDivisionError.
Proof.
  intros Hc Hh.
  destruct (transport_total p get_oahu_environmental_factors Hc) as [t Ht].
  unfold calculate_impact. rewrite Ht. cbn [bind].
  rewrite (energy_zero_division _ _ Hh). reflexivity.
Qed.

Lemma ratio_near_one (s o : Q) :
  0 < o -> o - (1 # 2) <= s -> s <= o + (1 # 2) ->
  - ((1 # 2) / o) <= s / o - 1 /\ s / o - 1 <= (1 # 2) / o.
Proof.
  intros Ho Hlo Hhi.
  assert (Hi : 0 < / o) by (apply Qinv_lt_0_compat, Ho).
  assert (Hoi : o * / o == 1) by (apply Qmult_inv_r; lra).
  unfold Qdiv. set (i := / o) in *.
  split; nra.
Qed.

Lemma half_ratio_small (o : Q) : 6 <= o -> (1 # 2) / o <= 1 # 12.
Proof.
  intros Ho.
  assert (Hi : 0 < / o) by (apply Qinv_lt_0_compat; lra).
  assert (Hoi : o * / o == 1) by (apply Qmult_inv_r; lra).
  unfold Qdiv. set (i := / o) in *. nra.
Qed.

(** C1: on every valid profile [calculate_impact] returns, the five
    category scores are the integers returned by the five calculators, and
    each of them and [overall_score] lies in 0..100. *)
Theorem scores_within_0_100 (p : UserProfile) :
  valid_profile p = true ->
  exists r,
    calculate_impact p = Ok r
    /\ calculate_transport_impact p get_oahu_environmental_factors = Ok (transport_score r)
    /\ calculate_energy_impact p get_oahu_environmental_factors = Ok (energy_score r)
    /\ calculate_water_impact p get_oahu_environmental_factors = Ok (water_score r)
    /\ calculate_waste_impact p get_oahu_environmental_factors = Ok (waste_score r)
    /\ calculate_food_impact p get_oahu_environmental_factors = Ok (food_score r)
    /\ (0 <= transport_score r <= 100)%Z
    /\ (0 <= energy_score r <= 100)%Z
    /\ (0 <= water_score r <= 100)%Z
    /\ (0 <= waste_score r <= 100)%Z
    /\ (0 <= food_score r <= 100)%Z
    /\ (0 <= overall_score r <= 100)%Z.
Proof.
  intros Hv.
  destruct (valid_impact_returns p Hv)
    as (r & Hr & Ht & He & Hw & Hwa & Hf & _ & Ho & _).
  exists r.
  pose proof (transport_range _ _ _ Ht).
  pose proof (energy_range _ _ _ He).
  pose proof (water_range _ _ _ Hw).
  pose proof (waste_range _ _ _ Hwa).
  pose proof (food_range _ _ _ Hf).
  repeat (split; [assumption || lia|]). lia.
Qed.

Lemma scores_within_0_100_witness :
  valid_profile form_defaults = true
  /\ exists r,
       calculate_impact form_defaults = Ok r
       /\ calculate_transport_impact form_defaults get_oahu_environmental_factors
          = Ok (transport_score r)
       /\ calculate_energy_impact form_defaults get_oahu_environmental_factors
          = Ok (energy_score r)
       /\ calculate_water_impact form_defaults get_oahu_environmental_factors
          = Ok (water_score r)
       /\ calculate_waste_impact form_defaults get_oahu_environmental_factors
          = Ok (waste_score r)
       /\ calculate_food_impact form_defaults get_oahu_environmental_factors
          = Ok (food_score r)
       /\ (0 <= transport_score r <= 100)%Z
       /\ (0 <= energy_score r <= 100)%Z
       /\ (0 <= water_score r <= 100)%Z
       /\ (0 <= waste_score r <= 100)%Z
       /\ (0 <= food_score r <= 100)%Z
       /\ (0 <= overall_score r <= 100)%Z.
Proof.
  split; [reflexivity | apply (scores_within_0_100 form_defaults); reflexivity].
Defined.


(** ** Floors, missing validation and the zero overall score *)

(** C9: on every valid profile the waste score is at least 41, so
    [calculate_impact] returns an [overall_score] of at least 6 and the
    divisions of [impact_breakdown] never raise. *)
Theorem waste_floor_keeps_overall_positive (p : UserProfile) :
  valid_profile p = true ->
  exists r,
    calculate_impact p = Ok r
    /\ calculate_waste_impact p get_oahu_environmental_factors = Ok (waste_score r)
    /\ (41 <= waste_score r)%Z
    /\ (6 <= overall_score r)%Z
    /\ (0 < overall_score r)%Z
    /\ calculate_impact p <> Raise ZeroDivisionError.
Proof.
  intros Hv.
  destruct (valid_impact_returns p Hv)
    as (r & Hr & _ & _ & _ & Hwa & _ & _ & Ho & _).
  pose proof (valid_profile_Valid p Hv) as V.
  destruct (waste_at_least_41 p (v_recycling_habit p V) (v_single_use_plastics p V))
    as (wa & Hwa' & H41); [apply (v_local_food p V)|].
  assert (wa = waste_score r) by congruence. subst wa.
  exists r.
  split; [exact Hr|]. split; [exact Hwa|]. split; [exact H41|].
  split; [lia|]. split; [lia|].
  rewrite Hr. discriminate.
Qed.

Lemma waste_floor_keeps_overall_positive_witness :
  valid_profile form_defaults = true
  /\ exists r,
       calculate_impact form_defaults = Ok r
       /\ calculate_waste_impact form_defaults get_oahu_environmental_factors
          = Ok (waste_score r)
       /\ (41 <= waste_score r)%Z
       /\ (6 <= overall_score r)%Z
       /\ (0 < overall_score r)%Z
       /\ calculate_impact form_defaults <> Raise ZeroDivisionError.
Proof.
  split; [reflexivity|].
  apply (waste_floor_keeps_overall_positive form_defaults). reflexivity.
Defined.

(** C8, as the code behaves: [calculate_impact] validates nothing.  With
    [household_size = 0] the transport calculator returns and the energy
    calculator then raises the raw [ZeroDivisionError]; with a negative
    [household_size] nothing is raised and a result is returned. *)
Theorem household_size_is_not_validated (p : UserProfile) (n : Z) :
  valid_profile p = true ->
  (n < 1)%Z ->
  (n = 0%Z ->
     (exists t, calculate_transport_impact (set_household_size p n)
                  get_oahu_environmental_factors = Ok t)
     /\ calculate_energy_impact (set_household_size p n) get_oahu_environmental_factors
        = Raise ZeroDivisionError
     /\ calculate_impact (set_household_size p n) = Raise ZeroDivisionError)
  /\ ((n < 0)%Z -> exists r, calculate_impact (set_household_size p n) = Ok r).
Proof.
  intros Hv Hn. apply valid_profile_Valid in Hv. split.
  - intros ->. split; [|split].
    + apply transport_total. exact (v_car_type p Hv).
    + apply energy_zero_division. reflexivity.
    + apply calculate_impact_empty_household; [exact (v_car_type p Hv) | reflexivity].
  - intros Hneg.
    destruct (impact_returns (set_household_size p n)) as (r & Hr & _).
    + exact (v_car_type p Hv).
    + cbn [set_household_size household_size]. lia.
    + exact (v_recycling_habit p Hv).
    + exact (v_single_use_plastics p Hv).
    + exact (proj1 (v_local_food p Hv)).
    + exact (v_diet_type p Hv).
    + exists r. exact Hr.
Qed.

Lemma household_size_is_not_validated_witness :
  valid_profile form_defaults = true
  /\ (0 < 1)%Z
  /\ (0%Z = 0%Z ->
        (exists t, calculate_transport_impact (set_household_size form_defaults 0)
                     get_oahu_environmental_factors = Ok t)
        /\ calculate_energy_impact (set_household_size form_defaults 0)
             get_oahu_environmental_factors = Raise ZeroDivisionError
        /\ calculate_impact (set_household_size form_defaults 0) = Raise ZeroDivisionError)
  /\ ((0 < 0)%Z -> exists r, calculate_impact (set_household_size form_defaults 0) = Ok r).
Proof.
  split; [reflexivity | split; [lia|]].
  apply (household_size_is_not_validated form_defaults 0); [reflexivity | lia].
Defined.

(** C8 fails on the code: an empty household is met by the raw division
    error of the energy calculator, after the transport calculator has
    returned, and a household of -1 is not rejected at all. *)
Lemma household_size_rejection_counterexample :
  calculate_transport_impact (set_household_size form_defaults 0)
    get_oahu_environmental_factors = Ok 94%Z
  /\ calculate_energy_impact (set_household_size form_defaults 0)
       get_oahu_environmental_factors = Raise ZeroDivisionError
  /\ calculate_impact (set_household_size form_defaults 0) = Raise ZeroDivisionError
  /\ exists r, calculate_impact (set_household_size form_defaults (-1)) = Ok r
               /\ energy_score r = 85%Z /\ waste_generation r = (-25)%Z.
Proof.
  split; [vm_compute; reflexivity|].
  split; [vm_compute; reflexivity|].
  split; [vm_compute; reflexivity|].
  eexists. split; [vm_compute; reflexivity|]. split; reflexivity.
Qed.

(** C3, as the code behaves: whenever the five category scores round to an
    [overall_score] of 0, [calculate_impact] raises [ZeroDivisionError] at
    the first division of [impact_breakdown]; no shares are returned. *)
Theorem zero_overall_score_raises (p : UserProfile) (t e w wa f : Z) :
  calculate_transport_impact p get_oahu_environmental_factors = Ok t ->
  calculate_energy_impact p get_oahu_environmental_factors = Ok e ->
  calculate_water_impact p get_oahu_environmental_factors = Ok w ->
  calculate_waste_impact p get_oahu_environmental_factors = Ok wa ->
  calculate_food_impact p get_oahu_environmental_factors = Ok f ->
  round (weighted t e w wa f) = 0%Z ->
  calculate_impact p = Raise ZeroDivisionError.
Proof.
  intros Ht He Hw Hwa Hf Ho.
  destruct (carbon_total p get_oahu_environmental_factors) as [c Hc].
  - exact (transport_ok_car_type _ _ _ Ht).
  - exact (food_ok_diet_type _ _ _ Hf).
  - rewrite (calculate_impact_unfold p t e w wa f c) by assumption.
    cbv zeta. rewrite Ho. reflexivity.
Qed.

Lemma zero_overall_score_raises_witness :
  calculate_transport_impact all_zero_profile get_oahu_environmental_factors = Ok 0%Z
  /\ calculate_energy_impact all_zero_profile get_oahu_environmental_factors = Ok 0%Z
  /\ calculate_water_impact all_zero_profile get_oahu_environmental_factors = Ok 0%Z
  /\ calculate_waste_impact all_zero_profile get_oahu_environmental_factors = Ok 0%Z
  /\ calculate_food_impact all_zero_profile get_oahu_environmental_factors = Ok 0%Z
  /\ round (weighted 0 0 0 0 0) = 0%Z
  /\ calculate_impact all_zero_profile = Raise ZeroDivisionError.
Proof.
  repeat (split; [vm_compute; reflexivity|]).
  apply (zero_overall_score_raises all_zero_profile 0 0 0 0 0);
    vm_compute; reflexivity.
Defined.

(** C3 fails on the code: on a record whose five scores are all 0 the
    evaluation raises instead of returning all-zero shares. *)
Lemma zero_shares_counterexample :
  calculate_transport_impact all_zero_profile get_oahu_environmental_factors = Ok 0%Z
  /\ calculate_energy_impact all_zero_profile get_oahu_environmental_factors = Ok 0%Z
  /\ calculate_water_impact all_zero_profile get_oahu_environmental_factors = Ok 0%Z
  /\ calculate_waste_impact all_zero_profile get_oahu_environmental_factors = Ok 0%Z
  /\ calculate_food_impact all_zero_profile get_oahu_environmental_factors = Ok 0%Z
  /\ round (weighted 0 0 0 0 0) = 0%Z
  /\ calculate_impact all_zero_profile = Raise ZeroDivisionError
  /\ ~ exists r, calculate_impact all_zero_profile = Ok r.
Proof.
  repeat (split; [vm_compute; reflexivity|]).
  intros [r Hr]. vm_compute in Hr. discriminate Hr.
Qed.


(** ** Impact breakdown *)

(** C2, as the code behaves: the shares are taken over the rounded
    [overall_score], so on every valid profile they sum to the unrounded
    weighted sum divided by [overall_score]; that is within
    [0.5 / overall_score], hence within 1/12, of 1. *)
Theorem breakdown_sums_to_weighted_over_rounded (p : UserProfile) :
  valid_profile p = true ->
  exists r,
    calculate_impact p = Ok r
    /\ sum_values (impact_breakdown r)
       == weighted_sum r / inject_Z (overall_score r)
    /\ Qabs (sum_values (impact_breakdown r) - 1)
       <= (1 # 2) / inject_Z (overall_score r)
    /\ Qabs (sum_values (impact_breakdown r) - 1) <= 1 # 12.
Proof.
  intros Hv.
  destruct (valid_impact_returns p Hv)
    as (r & Hr & _ & _ & _ & _ & _ & Ho & Hrange & Hb).
  exists r. split; [exact Hr|].
  assert (Ho6 : 6 <= inject_Z (overall_score r)).
  { change 6 with (inject_Z 6). rewrite <- Zle_Qle. lia. }
  assert (Hsum : sum_values (impact_breakdown r)
                 == weighted_sum r / inject_Z (overall_score r)).
  { rewrite Hb. unfold sum_values, weighted_sum, weighted. cbn [fold_left snd].
    field. lra. }
  split; [exact Hsum|].
  pose proof (round_near (weighted_sum r)) as [Hlo Hhi].
  rewrite <- Ho in Hlo, Hhi.
  destruct (ratio_near_one (weighted_sum r) (inject_Z (overall_score r)))
    as [Ha Hb']; try lra.
  pose proof (half_ratio_small _ Ho6) as Hsmall.
  split; apply Qabs_Qle_condition; rewrite Hsum; split; lra.
Qed.

Lemma breakdown_sums_to_weighted_over_rounded_witness :
  valid_profile form_defaults = true
  /\ exists r,
       calculate_impact form_defaults = Ok r
       /\ sum_values (impact_breakdown r)
          == weighted_sum r / inject_Z (overall_score r)
       /\ Qabs (sum_values (impact_breakdown r) - 1)
          <= (1 # 2) / inject_Z (overall_score r)
       /\ Qabs (sum_values (impact_breakdown r) - 1) <= 1 # 12.
Proof.
  split; [reflexivity|].
  apply (breakdown_sums_to_weighted_over_rounded form_defaults). reflexivity.
Defined.

(** C2 fails on the code: on the default answers of the form the shares sum
    to 78.05 / 78, which is further than 1e-6 from 1. *)
Lemma breakdown_sum_counterexample :
  valid_profile form_defaults = true
  /\ exists r,
       calculate_impact form_defaults = Ok r
       /\ (0 < overall_score r)%Z
       /\ sum_values (impact_breakdown r) == 7805 # 7800
       /\ ~ Qabs (sum_values (impact_breakdown r) - 1) <= 1 # 1000000.
Proof.
  split; [reflexivity|].
  eexists. split; [vm_compute; reflexivity|].
  split; [reflexivity|].
  split; [vm_compute; reflexivity|].
  vm_compute. intros H. apply H. reflexivity.
Qed.


(** ** Solar bonus and car usage *)

(** Destructs the comparisons of an [if] chain into inequalities. *)
Ltac bands :=
  repeat match goal with
  | |- context [if ltb ?a ?b then _ else _] =>
      let E := fresh "E" in
      destruct (ltb a b) eqn:E; [apply ltb_lt in E | apply ltb_ge in E]
  | |- context [if gtb ?a ?b then _ else _] =>
      let E := fresh "E" in
      destruct (gtb a b) eqn:E; [apply gtb_gt in E | apply gtb_le in E]
  end.




(** C5: on a valid profile, with every other answer fixed, a larger
    [car_usage] never gives a larger transport score. *)
Theorem transport_weakly_decreasing (p : UserProfile) (u1 u2 : Q) :
  valid_profile p = true ->
  u1 <= u2 ->
  exists s1 s2,
    calculate_transport_impact (set_car_usage p u1) get_oahu_environmental_factors = Ok s1
    /\ calculate_transport_impact (set_car_usage p u2) get_oahu_environmental_factors = Ok s2
    /\ (s2 <= s1)%Z.
Proof.
  intros Hv Hu. apply valid_profile_Valid in Hv.
  destruct (car_multipliers_total _ (v_car_type p Hv)) as (m & Hm & Hm0).
  unfold calculate_transport_impact.
  cbn [set_car_usage car_usage car_type public_transport_usage flight_hours
       transport traffic_congestion_factor get_oahu_environmental_factors].
  rewrite Hm. cbn [bind].
  do 2 eexists. split; [reflexivity|]. split; [reflexivity|].
  assert (Hum : u1 * m <= u2 * m) by (apply Qmult_le_compat_r; lra).
  set (benefit := Qmin 25 (public_transport_usage p * 1.5)).
  set (gas := negb (contains ["Electric vehicle"; "Hybrid vehicle"] (car_type p))).
  match goal with
  | |- (Z.max 0 (Z.min 100 (round ?b2)) <= Z.max 0 (Z.min 100 (round ?b1)))%Z =>
      assert (Hr : (round b2 <= round b1)%Z)
  end.
  { apply round_mono.
    destruct gas; rewrite ?andb_true_r, ?andb_false_r; bands; lra. }
  lia.
Qed.

Lemma transport_weakly_decreasing_witness :
  valid_profile form_defaults = true
  /\ 100 <= 250
  /\ exists s1 s2,
       calculate_transport_impact (set_car_usage form_defaults 100)
         get_oahu_environmental_factors = Ok s1
       /\ calculate_transport_impact (set_car_usage form_defaults 250)
            get_oahu_environmental_factors = Ok s2
       /\ (s2 <= s1)%Z.
Proof.
  split; [reflexivity|]. split; [unfold Qle; simpl; lia|].
  apply (transport_weakly_decreasing form_defaults 100 250);
    [reflexivity | unfold Qle; simpl; lia].
Defined.


(** ** Carbon estimate and the selector *)


(** C10: on every valid profile the carbon estimate is returned and is at
    least 2.8, hence strictly positive, although nothing clamps it. *)
Theorem carbon_footprint_at_least_2_8 (p : UserProfile) :
  valid_profile p = true ->
  exists c,
    calculate_carbon_footprint p get_oahu_environmental_factors = Ok c
    /\ 2.8 <= c /\ 0 < c.
Proof.
  intros Hv. apply valid_profile_Valid in Hv.
  destruct (car_emissions_total _ (v_car_type p Hv)) as (e & He & He0).
  destruct (diet_emissions_total _ (v_diet_type p Hv)) as (d & Hd & Hd0).
  pose proof (v_car_usage p Hv) as Hcu.
  pose proof (v_flight_hours p Hv) as Hfh.
  pose proof (v_electricity_bill p Hv) as Hbill.
  pose proof (v_local_food p Hv) as [Hlf0 Hlf100].
  assert (Hce : 0 <= car_usage p * e) by (apply Qmult_le_0_compat; lra).
  unfold calculate_carbon_footprint. rewrite He, Hd. cbn [bind].
  cbn [carbon island_multiplier get_oahu_environmental_factors].
  eexists. split; [reflexivity|].
  unfold round1.
  match goal with |- 2.8 <= inject_Z (round ?x) / 10 /\ _ =>
    assert (Hx : (28 <= round x)%Z); [|revert Hx; generalize (round x); intros n Hx] end.
  { apply round_ge. change (inject_Z 28) with 28.
    unfold Qdiv. change (/ 1000) with (1 # 1000). change (/ 100) with (1 # 100).
    destruct (String.eqb (renewable_energy p) "Yes - solar panels");
      destruct (String.eqb (renewable_energy p) "Yes - other");
      destruct (String.eqb (recycling_habit p) "Always");
      destruct (String.eqb (recycling_habit p) "Often");
      destruct (composting p); lra. }
  rewrite Zle_Qle in Hx. change (inject_Z 28) with 28 in Hx.
  unfold Qdiv. change (/ 10) with (1 # 10).
  split; lra.
Qed.

Lemma carbon_footprint_at_least_2_8_witness :
  valid_profile form_defaults = true
  /\ exists c,
       calculate_carbon_footprint form_defaults get_oahu_environmental_factors = Ok c
       /\ 2.8 <= c /\ 0 < c.
Proof.
  split; [reflexivity|].
  apply (carbon_footprint_at_least_2_8 form_defaults). reflexivity.
Defined.

(** C7: the selector lists the categories scoring below 60 in the fixed
    order; when there is none it lists the single first category holding
    the minimum, transport winning a tie and energy being chosen when it is
    the unique minimum. *)
Theorem selector_below_60_else_first_lowest (r : ImpactResult) :
  areas_for_improvement r = areas_spec r
  /\ ((60 <= transport_score r)%Z -> (60 <= energy_score r)%Z ->
      (60 <= water_score r)%Z -> (60 <= waste_score r)%Z ->
      (60 <= food_score r)%Z ->
      below_60 r = []
      /\ (exists c, areas_for_improvement r = [c])
      /\ (transport_score r = lowest_score r ->
          areas_for_improvement r = ["transportation"])
      /\ ((energy_score r < transport_score r)%Z ->
          (energy_score r < water_score r)%Z ->
          (energy_score r < waste_score r)%Z ->
          (energy_score r < food_score r)%Z ->
          areas_for_improvement r = ["energy"])).
Proof.
  unfold areas_for_improvement, areas_spec, below_60, first_lowest, lowest_score,
    category_scores.
  cbn [map filter fst snd fold_right find].
  set (t := transport_score r). set (e := energy_score r).
  set (w := water_score r). set (wa := waste_score r). set (f := food_score r).
  clearbody t e w wa f.
  set (m := Z.min t (Z.min e (Z.min w (Z.min wa f)))).
  replace (Z.min t (Z.min e (Z.min w (Z.min wa (Z.min f t))))) with m
    by (subst m; lia).
  assert (Hle : (m <= t /\ m <= e /\ m <= w /\ m <= wa /\ m <= f)%Z)
    by (subst m; lia).
  assert (Hin : (m = t \/ m = e \/ m = w \/ m = wa \/ m = f)%Z)
    by (subst m; lia).
  clearbody m.
  split.
  - destruct (Z.ltb_spec t 60), (Z.ltb_spec e 60), (Z.ltb_spec w 60),
      (Z.ltb_spec wa 60), (Z.ltb_spec f 60);
      cbn [app map filter fst snd]; try reflexivity.
    repeat match goal with
    | |- context [Z.eqb ?a ?b] => destruct (Z.eqb_spec a b)
    end; cbn [fst]; try reflexivity; exfalso; lia.
  - intros Ht He Hw Hwa Hf.
    destruct (Z.ltb_spec t 60); [lia|]. destruct (Z.ltb_spec e 60); [lia|].
    destruct (Z.ltb_spec w 60); [lia|]. destruct (Z.ltb_spec wa 60); [lia|].
    destruct (Z.ltb_spec f 60); [lia|].
    cbn [app map filter fst snd].
    split; [reflexivity|]. split; [|split].
    + repeat match goal with
      | |- context [Z.eqb ?a ?b] => destruct (Z.eqb_spec a b)
      end; try (eexists; reflexivity); exfalso; lia.
    + intros Hmin.
      destruct (Z.eqb_spec m t); [reflexivity | exfalso; lia].
    + intros Het Hew Hewa Hef.
      destruct (Z.eqb_spec m t); [exfalso; lia|].
      destruct (Z.eqb_spec m e); [reflexivity | exfalso; lia].
Qed.

Lemma selector_below_60_else_first_lowest_witness :
  areas_for_improvement sample_result = areas_spec sample_result
  /\ ((60 <= transport_score sample_result)%Z -> (60 <= energy_score sample_result)%Z ->
      (60 <= water_score sample_result)%Z -> (60 <= waste_score sample_result)%Z ->
      (60 <= food_score sample_result)%Z ->
      below_60 sample_result = []
      /\ (exists c, areas_for_improvement sample_result = [c])
      /\ (transport_score sample_result = lowest_score sample_result ->
          areas_for_improvement sample_result = ["transportation"])
      /\ ((energy_score sample_result < transport_score sample_result)%Z ->
          (energy_score sample_result < water_score sample_result)%Z ->
          (energy_score sample_result < waste_score sample_result)%Z ->
          (energy_score sample_result < food_score sample_result)%Z ->
          areas_for_improvement sample_result = ["energy"])).
Proof.
  apply (selector_below_60_else_first_lowest sample_result).
Defined.


(** ** Utility functions *)









(** ** Results page and charts *)

(** The banner of the results page and the colour of the score use the
    same thresholds 80, 60 and 40; the colour alone splits the lowest band
    at 20. *)
Theorem banner_agrees_with_color (score : Z) :
  (score_banner score = "success" <-> get_score_color score = "#4CAF50")
  /\ (score_banner score = "info" <-> get_score_color score = "#8BC34A")
  /\ (score_banner score = "warning" <-> get_score_color score = "#FFC107")
  /\ (score_banner score = "error" <->
      get_score_color score = "#FF9800" \/ get_score_color score = "#F44336")
  /\ (get_score_color score = "#F44336" <-> (score < 20)%Z).
Proof.
  unfold score_banner, get_score_color.
  destruct (Z.geb_spec score 80); [|destruct (Z.geb_spec score 60);
    [|destruct (Z.geb_spec score 40); [|destruct (Z.geb_spec score 20)]]];
    repeat split; intros; try reflexivity; try discriminate; try lia;
    try (left; reflexivity); try (right; reflexivity);
    match goal with H : _ \/ _ |- _ => destruct H; discriminate end.
Qed.

(** The pie-chart values always add up to the carbon footprint: every
    adjustment of the shares is zero-sum.  The names are fixed, and with a
    non-negative footprint no slice is negative. *)
Theorem carbon_breakdown_sums_to_footprint (r : ImpactResult) (p : UserProfile) :
  sum_values (create_carbon_breakdown_chart r p) == carbon_footprint r
  /\ map fst (create_carbon_breakdown_chart r p)
     = ["Transportation"; "Energy Use"; "Food"; "Waste"; "Other"]
  /\ (0 <= carbon_footprint r ->
      Forall (fun kv => 0 <= snd kv) (create_carbon_breakdown_chart r p)).
Proof.
  unfold create_carbon_breakdown_chart, sum_values.
  destruct (contains ["Electric vehicle"; "Hybrid vehicle"] (car_type p));
    destruct (gtb (flight_hours p) 10);
    destruct (contains ["Vegan"; "Vegetarian"] (diet_type p));
    cbv beta iota zeta; cbn [fold_left map fst snd];
    (split; [ring | split; [reflexivity|]]);
    intros Hc; repeat (apply Forall_cons; [cbn [snd]; nra|]); apply Forall_nil.
Qed.

(** ** Physical estimators *)

(** On a valid profile the daily water estimate is at least 12 gallons,
    although nothing clamps it: the three conservation measures together
    cannot use up the 30 gallons per person. *)
Theorem water_usage_at_least_12 (p : UserProfile) (f : EnvironmentalFactors) :
  valid_profile p = true ->
  (12 <= calculate_water_usage p f)%Z.
Proof.
  intros Hv. apply valid_profile_Valid in Hv.
  pose proof (v_household_size p Hv) as Hhs.
  rewrite Zle_Qle in Hhs. change (inject_Z 1) with 1 in Hhs.
  assert (Hs : 0 <= shower_length p * shower_frequency p)
    by (apply Qmult_le_0_compat; [apply (v_shower_length p Hv)
                                 | apply (v_shower_frequency p Hv)]).
  unfold calculate_water_usage.
  change 12%Z with (round 11.6). apply round_mono.
  unfold Qdiv. change (/ 7) with (1 # 7).
  destruct (contains (water_conservation p) "Low-flow showerheads/faucets");
    destruct (contains (water_conservation p) "Dual-flush toilets");
    destruct (contains (water_conservation p) "Drought-resistant landscaping");
    lra.
Qed.

Lemma water_usage_at_least_12_witness :
  valid_profile form_defaults = true
  /\ (12 <= calculate_water_usage form_defaults get_oahu_environmental_factors)%Z.
Proof.
  split; [reflexivity|].
  apply (water_usage_at_least_12 form_defaults). reflexivity.
Defined.

(** With a household of at least one person the weekly waste estimate lies
    between 11 pounds and 38 pounds per person, whatever the answers. *)
Theorem waste_generation_bounds (p : UserProfile) (f : EnvironmentalFactors) :
  (1 <= household_size p)%Z ->
  (11 <= calculate_waste_generation p f <= 38 * household_size p)%Z.
Proof.
  intros Hhs.
  assert (Hq : 1 <= inject_Z (household_size p)).
  { change 1 with (inject_Z 1). rewrite <- Zle_Qle. exact Hhs. }
  unfold calculate_waste_generation. split.
  - change 11%Z with (round 10.584). apply round_mono.
    destruct (String.eqb (recycling_habit p) "Always");
      destruct (String.eqb (recycling_habit p) "Often");
      destruct (String.eqb (recycling_habit p) "Sometimes");
      destruct (composting p);
      destruct (String.eqb (single_use_plastics p) "Always");
      destruct (String.eqb (single_use_plastics p) "Never"); lra.
  - apply round_le. rewrite inject_Z_mult. change (inject_Z 38) with 38.
    destruct (String.eqb (recycling_habit p) "Always");
      destruct (String.eqb (recycling_habit p) "Often");
      destruct (String.eqb (recycling_habit p) "Sometimes");
      destruct (composting p);
      destruct (String.eqb (single_use_plastics p) "Always");
      destruct (String.eqb (single_use_plastics p) "Never"); lra.
Qed.

Lemma waste_generation_bounds_witness :
  (1 <= household_size form_defaults)%Z
  /\ (11 <= calculate_waste_generation form_defaults get_oahu_environmental_factors
      <= 38 * household_size form_defaults)%Z.
Proof.
  split; [simpl; lia|].
  apply (waste_generation_bounds form_defaults). simpl. lia.
Defined.


(** ** Transport and energy calculators *)

Lemma ltb_comp (a a' b : Q) : a == a' -> ltb a b = ltb a' b.
Proof.
  intros H. destruct (ltb a' b) eqn:E.
  - apply ltb_lt. apply ltb_lt in E. lra.
  - apply ltb_ge. apply ltb_ge in E. lra.
Qed.

Lemma gtb_comp (a a' b : Q) : a == a' -> gtb a b = gtb a' b.
Proof.
  intros H. destruct (gtb a' b) eqn:E.
  - apply gtb_gt. apply gtb_gt in E. lra.
  - apply gtb_le. apply gtb_le in E. lra.
Qed.

(** More public transport trips never lower the transport score, and from
    50/3 trips a week on (the benefit of 1.5 per trip is capped at 25) the
    score no longer changes. *)
Theorem public_transport_benefit_is_capped (p : UserProfile) (a b : Q) :
  contains car_types (car_type p) = true ->
  a <= b ->
  exists s s',
    calculate_transport_impact (set_public_transport_usage p a)
      get_oahu_environmental_factors = Ok s
    /\ calculate_transport_impact (set_public_transport_usage p b)
         get_oahu_environmental_factors = Ok s'
    /\ (s <= s')%Z
    /\ (50 # 3 <= a -> s = s').
Proof.
  intros Hcar Hab.
  destruct (car_multipliers_total _ Hcar) as (m & Hm & _).
  unfold calculate_transport_impact.
  cbn [set_public_transport_usage car_usage car_type public_transport_usage
       flight_hours].
  rewrite Hm. cbn [bind].
  do 2 eexists. split; [reflexivity|]. split; [reflexivity|].
  set (penalty := gtb (car_usage p) 0
                  && negb (contains ["Electric vehicle"; "Hybrid vehicle"] (car_type p))).
  assert (Hmin : Qmin 25 (a * 1.5) <= Qmin 25 (b * 1.5)
                 /\ (50 # 3 <= a -> Qmin 25 (a * 1.5) == Qmin 25 (b * 1.5))).
  { destruct (Q.min_spec 25 (a * 1.5)) as [[Ha Ea] | [Ha Ea]];
      destruct (Q.min_spec 25 (b * 1.5)) as [[Hb Eb] | [Hb Eb]];
      rewrite Ea, Eb; (split; [|intros H]); lra. }
  destruct Hmin as [Hle Hcap].
  set (ba := Qmin 25 (a * 1.5)) in *. set (bb := Qmin 25 (b * 1.5)) in *.
  split.
  - match goal with |- (Z.max 0 (Z.min 100 (round ?x)) <= Z.max 0 (Z.min 100 (round ?y)))%Z =>
      assert (Hr : (round x <= round y)%Z) end.
    { apply round_mono. destruct penalty; lra. }
    lia.
  - intros H. specialize (Hcap H). f_equal. f_equal. apply round_comp.
    destruct penalty; rewrite Hcap; reflexivity.
Qed.

Lemma public_transport_benefit_is_capped_witness :
  contains car_types (car_type form_defaults) = true
  /\ 20 <= 30
  /\ exists s s',
       calculate_transport_impact (set_public_transport_usage form_defaults 20)
         get_oahu_environmental_factors = Ok s
       /\ calculate_transport_impact (set_public_transport_usage form_defaults 30)
            get_oahu_environmental_factors = Ok s'
       /\ (s <= s')%Z
       /\ (50 # 3 <= 20 -> s = s').
Proof.
  split; [reflexivity|]. split; [unfold Qle; simpl; lia|].
  apply (public_transport_benefit_is_capped form_defaults 20 30);
    [reflexivity | unfold Qle; simpl; lia].
Defined.

(** The congestion factor of the table reaches the transport score only
    for a driven gas car: with an electric or hybrid vehicle, or with no
    miles driven, the score is the same under every factor table. *)
Theorem congestion_penalty_only_for_driven_gas_cars
    (p : UserProfile) (f f' : EnvironmentalFactors) :
  contains ["Electric vehicle"; "Hybrid vehicle"] (car_type p) = true
  \/ car_usage p <= 0 ->
  calculate_transport_impact p f = calculate_transport_impact p f'.
Proof.
  intros H. unfold calculate_transport_impact.
  destruct (getitem car_multipliers (car_type p)); cbn [bind]; [|reflexivity].
  destruct H as [H | H].
  - rewrite H. cbn [negb]. rewrite andb_false_r. reflexivity.
  - apply gtb_le in H. rewrite H. reflexivity.
Qed.

Lemma congestion_penalty_only_for_driven_gas_cars_witness :
  (contains ["Electric vehicle"; "Hybrid vehicle"] (car_type form_defaults) = true
   \/ car_usage form_defaults <= 0)
  /\ calculate_transport_impact form_defaults get_oahu_environmental_factors
     = calculate_transport_impact form_defaults
         {| transport := {| traffic_congestion_factor := 5;
                            public_transport_quality := 0;
                            ev_grid_impact := 0;
                            avg_commute_distance := 0 |};
            energy := energy get_oahu_environmental_factors;
            water := water get_oahu_environmental_factors;
            waste := waste get_oahu_environmental_factors;
            food := food get_oahu_environmental_factors;
            carbon := carbon get_oahu_environmental_factors |}.
Proof.
  split; [left; reflexivity|].
  apply (congestion_penalty_only_for_driven_gas_cars form_defaults).
  left. reflexivity.
Defined.


(** Between two households of the same size and renewable answer, the
    one with the larger electricity bill and the longer air conditioning
    never gets the better energy score: the step table is ordered. *)
Theorem energy_weakly_decreasing_in_bill_and_cooling
    (p p' : UserProfile) (f : EnvironmentalFactors) :
  (1 <= household_size p)%Z ->
  household_size p' = household_size p ->
  renewable_energy p' = renewable_energy p ->
  electricity_bill p <= electricity_bill p' ->
  air_conditioning p <= air_conditioning p' ->
  exists s s',
    calculate_energy_impact p f = Ok s
    /\ calculate_energy_impact p' f = Ok s'
    /\ (s' <= s)%Z.
Proof.
  intros Hhs Hsame Hren Hbill Hac.
  unfold calculate_energy_impact. rewrite Hsame, Hren.
  rewrite !div_ok by (apply inject_Z_nonzero; lia).
  cbn [bind].
  do 2 eexists. split; [reflexivity|]. split; [reflexivity|].
  assert (Hn : 1 <= inject_Z (household_size p)).
  { change 1 with (inject_Z 1). rewrite <- Zle_Qle. exact Hhs. }
  assert (Hi : 0 < / inject_Z (household_size p)) by (apply Qinv_lt_0_compat; lra).
  assert (Hpp : electricity_bill p / inject_Z (household_size p)
                <= electricity_bill p' / inject_Z (household_size p)).
  { unfold Qdiv. apply Qmult_le_compat_r; lra. }
  set (pp := electricity_bill p / inject_Z (household_size p)) in *.
  set (pp' := electricity_bill p' / inject_Z (household_size p)) in *.
  match goal with
  | |- (Z.max 0 (Z.min 100 (round ?x')) <= Z.max 0 (Z.min 100 (round ?x)))%Z =>
      assert (Hr : (round x' <= round x)%Z)
  end.
  { apply round_mono.
    destruct (String.eqb (renewable_energy p) "Yes - solar panels");
      destruct (String.eqb (renewable_energy p) "Yes - other");
      bands; lra. }
  lia.
Qed.

Lemma energy_weakly_decreasing_in_bill_and_cooling_witness :
  (1 <= household_size frugal_household)%Z
  /\ household_size form_defaults = household_size frugal_household
  /\ renewable_energy form_defaults = renewable_energy frugal_household
  /\ electricity_bill frugal_household <= electricity_bill form_defaults
  /\ air_conditioning frugal_household <= air_conditioning form_defaults
  /\ exists s s',
       calculate_energy_impact frugal_household get_oahu_environmental_factors = Ok s
       /\ calculate_energy_impact form_defaults get_oahu_environmental_factors = Ok s'
       /\ (s' <= s)%Z.
Proof.
  split; [simpl; lia|]. split; [reflexivity|]. split; [reflexivity|].
  split; [unfold Qle; simpl; lia|]. split; [unfold Qle; simpl; lia|].
  apply (energy_weakly_decreasing_in_bill_and_cooling frugal_household form_defaults);
    try reflexivity; try (simpl; lia); unfold Qle; simpl; lia.
Defined.

(** The energy score sees the bill only per person: multiplying the bill
    and the household size by the same positive number leaves it
    unchanged. *)
Theorem energy_depends_on_bill_per_person
    (p : UserProfile) (k : Z) (f : EnvironmentalFactors) :
  (0 < k)%Z ->
  household_size p <> 0%Z ->
  calculate_energy_impact
    (set_household_size (set_electricity_bill p (inject_Z k * electricity_bill p))
       (k * household_size p)) f
  = calculate_energy_impact p f.
Proof.
  intros Hk Hhs.
  unfold calculate_energy_impact.
  cbn [set_household_size set_electricity_bill electricity_bill household_size
       renewable_energy air_conditioning].
  rewrite !div_ok by (apply inject_Z_nonzero; lia).
  cbn [bind].
  assert (Hpp : inject_Z k * electricity_bill p / inject_Z (k * household_size p)
                == electricity_bill p / inject_Z (household_size p)).
  { rewrite inject_Z_mult. field. split.
    - apply inject_Z_nonzero. exact Hhs.
    - apply inject_Z_nonzero. lia. }
  set (pp' := inject_Z k * electricity_bill p / inject_Z (k * household_size p)) in *.
  set (pp := electricity_bill p / inject_Z (household_size p)) in *.
  rewrite !(ltb_comp pp' pp _ Hpp), !(gtb_comp pp' pp _ Hpp).
  reflexivity.
Qed.

Lemma energy_depends_on_bill_per_person_witness :
  (0 < 3)%Z /\ household_size form_defaults <> 0%Z
  /\ calculate_energy_impact
       (set_household_size
          (set_electricity_bill form_defaults (inject_Z 3 * electricity_bill form_defaults))
          (3 * household_size form_defaults)) get_oahu_environmental_factors
     = calculate_energy_impact form_defaults get_oahu_environmental_factors.
Proof.
  split; [lia|]. split; [discriminate|].
  apply (energy_depends_on_bill_per_person form_defaults 3); [lia | discriminate].
Defined.

(** An answer to the renewable-energy question other than the two "Yes"
    options is not rejected: the energy score and the carbon estimate treat
    it exactly like "No". *)
Theorem unknown_renewable_answer_counts_as_no
    (p : UserProfile) (v : string) (f : EnvironmentalFactors) :
  v <> "Yes - solar panels" ->
  v <> "Yes - other" ->
  calculate_energy_impact (set_renewable_energy p v) f
    = calculate_energy_impact (set_renewable_energy p "No") f
  /\ calculate_carbon_footprint (set_renewable_energy p v) f
     = calculate_carbon_footprint (set_renewable_energy p "No") f.
Proof.
  intros Hs Ho.
  apply String.eqb_neq in Hs. apply String.eqb_neq in Ho.
  unfold calculate_energy_impact, calculate_carbon_footprint.
  cbn [set_renewable_energy electricity_bill household_size renewable_energy
       air_conditioning car_usage car_type flight_hours diet_type local_food
       recycling_habit composting].
  rewrite Hs, Ho.
  change (String.eqb "No" "Yes - solar panels") with false.
  change (String.eqb "No" "Yes - other") with false.
  split; reflexivity.
Qed.

Lemma unknown_renewable_answer_counts_as_no_witness :
  "Wind turbine" <> "Yes - solar panels"
  /\ "Wind turbine" <> "Yes - other"
  /\ calculate_energy_impact (set_renewable_energy form_defaults "Wind turbine")
       get_oahu_environmental_factors
     = calculate_energy_impact (set_renewable_energy form_defaults "No")
         get_oahu_environmental_factors
  /\ calculate_carbon_footprint (set_renewable_energy form_defaults "Wind turbine")
       get_oahu_environmental_factors
     = calculate_carbon_footprint (set_renewable_energy form_defaults "No")
         get_oahu_environmental_factors.
Proof.
  split; [discriminate|]. split; [discriminate|].
  apply (unknown_renewable_answer_counts_as_no form_defaults "Wind turbine");
    discriminate.
Defined.


(** ** Water calculator *)

(** Once "None of the above" is among the selected measures, the other
    selected measures earn nothing: the water score is the one of an empty
    selection. *)
Theorem none_of_the_above_cancels_measures
    (p : UserProfile) (measures : list string) (f : EnvironmentalFactors) :
  contains measures "None of the above" = true ->
  calculate_water_impact (set_water_conservation p measures) f
  = calculate_water_impact (set_water_conservation p []) f.
Proof.
  intros H. unfold calculate_water_impact.
  cbn [set_water_conservation shower_length shower_frequency water_conservation].
  rewrite H. cbn [negb contains List.length].
  f_equal. f_equal. f_equal. apply round_comp.
  change (inject_Z (Z.of_nat 0)) with 0. ring.
Qed.

Lemma none_of_the_above_cancels_measures_witness :
  contains ["Dual-flush toilets"; "None of the above"] "None of the above" = true
  /\ calculate_water_impact
       (set_water_conservation form_defaults ["Dual-flush toilets"; "None of the above"])
       get_oahu_environmental_factors
     = calculate_water_impact (set_water_conservation form_defaults [])
         get_oahu_environmental_factors.
Proof.
  split; [reflexivity|].
  apply (none_of_the_above_cancels_measures form_defaults). reflexivity.
Defined.

(** Without "None of the above", the water score depends on the selection
    only through its length, and a longer selection never scores lower. *)
Theorem water_score_grows_with_measure_count
    (p : UserProfile) (ms ms' : list string) (f : EnvironmentalFactors) :
  contains ms "None of the above" = false ->
  contains ms' "None of the above" = false ->
  (List.length ms <= List.length ms')%nat ->
  exists s s',
    calculate_water_impact (set_water_conservation p ms) f = Ok s
    /\ calculate_water_impact (set_water_conservation p ms') f = Ok s'
    /\ (s <= s')%Z
    /\ (List.length ms = List.length ms' -> s = s').
Proof.
  intros H H' Hlen. unfold calculate_water_impact.
  cbn [set_water_conservation shower_length shower_frequency water_conservation].
  rewrite H, H'. cbn [negb].
  do 2 eexists. split; [reflexivity|]. split; [reflexivity|]. split.
  - match goal with
    | |- (Z.max 0 (Z.min 100 (round ?x)) <= Z.max 0 (Z.min 100 (round ?y)))%Z =>
        assert (Hr : (round x <= round y)%Z)
    end.
    { apply round_mono.
      assert (Hq : inject_Z (Z.of_nat (List.length ms))
                   <= inject_Z (Z.of_nat (List.length ms')))
        by (rewrite <- Zle_Qle; lia).
      lra. }
    lia.
  - intros Heq. rewrite Heq. reflexivity.
Qed.

Lemma water_score_grows_with_measure_count_witness :
  contains ["Rainwater collection"] "None of the above" = false
  /\ contains ["Dual-flush toilets"; "Rainwater collection"] "None of the above" = false
  /\ (List.length ["Rainwater collection"]
      <= List.length ["Dual-flush toilets"; "Rainwater collection"])%nat
  /\ exists s s',
       calculate_water_impact
         (set_water_conservation form_defaults ["Rainwater collection"])
         get_oahu_environmental_factors = Ok s
       /\ calculate_water_impact
            (set_water_conservation form_defaults
               ["Dual-flush toilets"; "Rainwater collection"])
            get_oahu_environmental_factors = Ok s'
       /\ (s <= s')%Z
       /\ (List.length ["Rainwater collection"]
           = List.length ["Dual-flush toilets"; "Rainwater collection"] -> s = s').
Proof.
  split; [reflexivity|]. split; [reflexivity|]. split; [simpl; lia|].
  apply (water_score_grows_with_measure_count form_defaults);
    [reflexivity | reflexivity | simpl; lia].
Defined.

(** ** Carbon estimate *)

Lemma round1_mono (x y : Q) : x <= y -> round1 x <= round1 y.
Proof.
  intros H. unfold round1.
  assert (Hr : (round (x * 10) <= round (y * 10))%Z) by (apply round_mono; lra).
  rewrite Zle_Qle in Hr.
  unfold Qdiv. change (/ 10) with (1 # 10). lra.
Qed.

(** Between two profiles with the same enumerated answers, more miles,
    more flight hours, a larger bill and less local food never lower the
    carbon estimate. *)
Theorem carbon_footprint_is_monotone (p p' : UserProfile) (f : EnvironmentalFactors) :
  contains car_types (car_type p) = true ->
  contains diet_types (diet_type p) = true ->
  0 <= island_multiplier (carbon f) ->
  car_type p' = car_type p ->
  renewable_energy p' = renewable_energy p ->
  diet_type p' = diet_type p ->
  recycling_habit p' = recycling_habit p ->
  composting p' = composting p ->
  car_usage p <= car_usage p' ->
  flight_hours p <= flight_hours p' ->
  electricity_bill p <= electricity_bill p' ->
  local_food p' <= local_food p ->
  exists c c',
    calculate_carbon_footprint p f = Ok c
    /\ calculate_carbon_footprint p' f = Ok c'
    /\ c <= c'.
Proof.
  intros Hcar Hdiet Hm Ect Ere Edt Erh Eco Hcu Hfh Hbill Hlf.
  destruct (car_emissions_total _ Hcar) as (e & He & He0).
  destruct (diet_emissions_total _ Hdiet) as (d & Hd & _).
  unfold calculate_carbon_footprint.
  rewrite Ect, Ere, Edt, Erh, Eco, He, Hd. cbn [bind].
  do 2 eexists. split; [reflexivity|]. split; [reflexivity|].
  apply round1_mono.
  assert (Hmul : car_usage p * e <= car_usage p' * e)
    by (apply Qmult_le_compat_r; lra).
  set (m := island_multiplier (carbon f)) in *.
  apply Qplus_le_compat; [|lra].
  apply Qmult_le_compat_r; [|exact Hm].
  unfold Qdiv. change (/ 1000) with (1 # 1000). change (/ 100) with (1 # 100).
  destruct (String.eqb (renewable_energy p) "Yes - solar panels");
    destruct (String.eqb (renewable_energy p) "Yes - other");
    destruct (String.eqb (recycling_habit p) "Always");
    destruct (String.eqb (recycling_habit p) "Often");
    destruct (composting p); lra.
Qed.

Lemma carbon_footprint_is_monotone_witness :
  contains car_types (car_type form_defaults) = true
  /\ contains diet_types (diet_type form_defaults) = true
  /\ 0 <= island_multiplier (carbon get_oahu_environmental_factors)
  /\ exists c c',
       calculate_carbon_footprint form_defaults get_oahu_environmental_factors = Ok c
       /\ calculate_carbon_footprint (set_car_usage form_defaults 250)
            get_oahu_environmental_factors = Ok c'
       /\ c <= c'.
Proof.
  split; [reflexivity|]. split; [reflexivity|]. split; [unfold Qle; simpl; lia|].
  apply (carbon_footprint_is_monotone form_defaults (set_car_usage form_defaults 250));
    try reflexivity; unfold Qle; simpl; lia.
Defined.


(** ** Failures of [calculate_impact] *)

Lemma getitem_missing {V : Type} (d : dict V) (k : string) :
  contains (map fst d) k = false -> getitem d k = Raise (KeyError k).
Proof.
  induction d as [|[k' v] d IH]; simpl; [reflexivity|].
  destruct (String.eqb k' k); [discriminate | exact IH].
Qed.

Lemma waste_total p f :
  contains frequency_options (recycling_habit p) = true ->
  contains frequency_options (single_use_plastics p) = true ->
  exists s, calculate_waste_impact p f = Ok s.
Proof.
  intros Hr Hp.
  destruct (recycling_score_total _ Hr) as (a & Ha & _).
  destruct (plastic_score_total _ Hp) as (b & Hb & _).
  unfold calculate_waste_impact. rewrite Ha, Hb. cbn [bind].
  eexists. reflexivity.
Qed.

Lemma energy_ok_household p f s :
  calculate_energy_impact p f = Ok s -> household_size p <> 0%Z.
Proof.
  intros H E. rewrite (energy_zero_division p f E) in H. discriminate.
Qed.

Lemma waste_ok_keys p f s :
  calculate_waste_impact p f = Ok s ->
  contains frequency_options (recycling_habit p) = true
  /\ contains frequency_options (single_use_plastics p) = true.
Proof.
  unfold calculate_waste_impact.
  destruct (getitem recycling_score_map (recycling_habit p)) eqn:E1;
    cbn [bind]; [|discriminate].
  destruct (getitem plastic_score_map (single_use_plastics p)) eqn:E2;
    cbn [bind]; [|discriminate].
  intros _. split.
  - exact (getitem_contains _ _ _ E1).
  - exact (getitem_contains _ _ _ E2).
Qed.

(** A vehicle type outside the lookup table makes the transport
    calculator, the carbon estimate and the whole evaluation raise
    [KeyError] with that very answer, before anything else is looked at. *)
Theorem unknown_car_type_raises_key_error (p : UserProfile) (f : EnvironmentalFactors) :
  contains car_types (car_type p) = false ->
  calculate_transport_impact p f = Raise (KeyError (car_type p))
  /\ calculate_carbon_footprint p f = Raise (KeyError (car_type p))
  /\ calculate_impact p = Raise (KeyError (car_type p)).
Proof.
  intros H.
  assert (Ht : forall g, calculate_transport_impact p g = Raise (KeyError (car_type p))).
  { intros g. unfold calculate_transport_impact.
    rewrite (getitem_missing car_multipliers _ H). reflexivity. }
  split; [apply Ht|]. split.
  - unfold calculate_carbon_footprint.
    rewrite (getitem_missing car_emissions _ H). reflexivity.
  - unfold calculate_impact. rewrite Ht. reflexivity.
Qed.

Lemma unknown_car_type_raises_key_error_witness :
  contains car_types (car_type unknown_vehicle) = false
  /\ calculate_transport_impact unknown_vehicle get_oahu_environmental_factors
     = Raise (KeyError (car_type unknown_vehicle))
  /\ calculate_carbon_footprint unknown_vehicle get_oahu_environmental_factors
     = Raise (KeyError (car_type unknown_vehicle))
  /\ calculate_impact unknown_vehicle = Raise (KeyError (car_type unknown_vehicle)).
Proof.
  split; [reflexivity|].
  apply (unknown_car_type_raises_key_error unknown_vehicle). reflexivity.
Defined.

(** With a known vehicle type and a non-empty household, the first
    unknown answer among recycling habit, single-use plastics and diet, in
    this order, is the [KeyError] that [calculate_impact] raises. *)
Theorem first_unknown_answer_is_reported (p : UserProfile) :
  contains car_types (car_type p) = true ->
  household_size p <> 0%Z ->
  (contains frequency_options (recycling_habit p) = false ->
   calculate_impact p = Raise (KeyError (recycling_habit p)))
  /\ (contains frequency_options (recycling_habit p) = true ->
      contains frequency_options (single_use_plastics p) = false ->
      calculate_impact p = Raise (KeyError (single_use_plastics p)))
  /\ (contains frequency_options (recycling_habit p) = true ->
      contains frequency_options (single_use_plastics p) = true ->
      contains diet_types (diet_type p) = false ->
      calculate_impact p = Raise (KeyError (diet_type p))).
Proof.
  intros Hcar Hhs.
  destruct (transport_total p get_oahu_environmental_factors Hcar) as [t Ht].
  destruct (energy_total p get_oahu_environmental_factors Hhs) as [e He].
  destruct (water_total p get_oahu_environmental_factors) as [w Hw].
  unfold calculate_impact. rewrite Ht, He, Hw. cbn [bind].
  split; [|split].
  - intros Hr. unfold calculate_waste_impact.
    rewrite (getitem_missing recycling_score_map _ Hr). reflexivity.
  - intros Hr Hp. destruct (recycling_score_total _ Hr) as (a & Ha & _).
    unfold calculate_waste_impact. rewrite Ha. cbn [bind].
    rewrite (getitem_missing plastic_score_map _ Hp). reflexivity.
  - intros Hr Hp Hd.
    destruct (waste_total p get_oahu_environmental_factors Hr Hp) as [wa Hwa].
    rewrite Hwa. cbn [bind]. unfold calculate_food_impact.
    rewrite (getitem_missing diet_score_map _ Hd). reflexivity.
Qed.

Lemma first_unknown_answer_is_reported_witness :
  contains car_types (car_type unknown_habits) = true
  /\ household_size unknown_habits <> 0%Z
  /\ (contains frequency_options (recycling_habit unknown_habits) = false ->
      calculate_impact unknown_habits = Raise (KeyError (recycling_habit unknown_habits)))
  /\ (contains frequency_options (recycling_habit unknown_habits) = true ->
      contains frequency_options (single_use_plastics unknown_habits) = false ->
      calculate_impact unknown_habits
      = Raise (KeyError (single_use_plastics unknown_habits)))
  /\ (contains frequency_options (recycling_habit unknown_habits) = true ->
      contains frequency_options (single_use_plastics unknown_habits) = true ->
      contains diet_types (diet_type unknown_habits) = false ->
      calculate_impact unknown_habits = Raise (KeyError (diet_type unknown_habits))).
Proof.
  split; [reflexivity|]. split; [discriminate|].
  apply (first_unknown_answer_is_reported unknown_habits);
    [reflexivity | discriminate].
Defined.

Lemma calculate_impact_inv (p : UserProfile) (r : ImpactResult) :
  calculate_impact p = Ok r ->
  calculate_transport_impact p get_oahu_environmental_factors = Ok (transport_score r)
  /\ calculate_energy_impact p get_oahu_environmental_factors = Ok (energy_score r)
  /\ calculate_water_impact p get_oahu_environmental_factors = Ok (water_score r)
  /\ calculate_waste_impact p get_oahu_environmental_factors = Ok (waste_score r)
  /\ calculate_food_impact p get_oahu_environmental_factors = Ok (food_score r)
  /\ calculate_carbon_footprint p get_oahu_environmental_factors = Ok (carbon_footprint r)
  /\ overall_score r = round (weighted_sum r)
  /\ overall_score r <> 0%Z.
Proof.
  unfold calculate_impact.
  destruct (calculate_transport_impact p _) as [t|]; cbn [bind]; [|discriminate].
  destruct (calculate_energy_impact p _) as [e|]; cbn [bind]; [|discriminate].
  destruct (calculate_water_impact p _) as [w|]; cbn [bind]; [|discriminate].
  destruct (calculate_waste_impact p _) as [wa|]; cbn [bind]; [|discriminate].
  destruct (calculate_food_impact p _) as [f|]; cbn [bind]; [|discriminate].
  destruct (calculate_carbon_footprint p _) as [c|]; cbn [bind]; [|discriminate].
  fold (weighted t e w wa f). unfold div.
  destruct (Qeq_bool (inject_Z (round (weighted t e w wa f))) 0) eqn:E;
    cbn [bind]; [discriminate|].
  intros H. injection H as <-.
  cbn [transport_score energy_score water_score waste_score food_score
       carbon_footprint overall_score].
  repeat (split; [reflexivity|]).
  intros H0. rewrite H0 in E. discriminate E.
Qed.

(** Whatever the answers, a result that [calculate_impact] returns has
    its five category scores in 0..100 and an [overall_score] in 1..100;
    the answers behind it have known keys and a non-empty household. *)
Theorem returned_result_is_well_formed (p : UserProfile) (r : ImpactResult) :
  calculate_impact p = Ok r ->
  (0 <= transport_score r <= 100)%Z
  /\ (0 <= energy_score r <= 100)%Z
  /\ (0 <= water_score r <= 100)%Z
  /\ (0 <= waste_score r <= 100)%Z
  /\ (0 <= food_score r <= 100)%Z
  /\ (1 <= overall_score r <= 100)%Z
  /\ contains car_types (car_type p) = true
  /\ household_size p <> 0%Z
  /\ contains frequency_options (recycling_habit p) = true
  /\ contains frequency_options (single_use_plastics p) = true
  /\ contains diet_types (diet_type p) = true.
Proof.
  intros H.
  destruct (calculate_impact_inv p r H)
    as (Ht & He & Hw & Hwa & Hf & _ & Ho & Hnz).
  pose proof (transport_range _ _ _ Ht) as Rt.
  pose proof (energy_range _ _ _ He) as Re.
  pose proof (water_range _ _ _ Hw) as Rw.
  pose proof (waste_range _ _ _ Hwa) as Rwa.
  pose proof (food_range _ _ _ Hf) as Rf.
  destruct (weighted_bounds _ _ _ _ _ Rt Re Rw Rwa Rf) as [Hlo Hhi].
  assert (Hwa0 : 0 <= inject_Z (waste_score r)).
  { change 0 with (inject_Z 0). rewrite <- Zle_Qle. lia. }
  assert (Hr : (0 <= round (weighted_sum r) <= 100)%Z).
  { unfold weighted_sum. split; [apply round_ge | apply round_le].
    - change (inject_Z 0) with 0. lra.
    - exact Hhi. }
  destruct (waste_ok_keys _ _ _ Hwa) as [Kr Kp].
  repeat (split; [assumption || lia|]).
  split; [exact (transport_ok_car_type _ _ _ Ht)|].
  split; [exact (energy_ok_household _ _ _ He)|].
  split; [exact Kr|]. split; [exact Kp|].
  exact (food_ok_diet_type _ _ _ Hf).
Qed.

Lemma returned_result_is_well_formed_witness :
  exists r,
    calculate_impact form_defaults = Ok r
    /\ (0 <= transport_score r <= 100)%Z
    /\ (0 <= energy_score r <= 100)%Z
    /\ (0 <= water_score r <= 100)%Z
    /\ (0 <= waste_score r <= 100)%Z
    /\ (0 <= food_score r <= 100)%Z
    /\ (1 <= overall_score r <= 100)%Z
    /\ contains car_types (car_type form_defaults) = true
    /\ household_size form_defaults <> 0%Z
    /\ contains frequency_options (recycling_habit form_defaults) = true
    /\ contains frequency_options (single_use_plastics form_defaults) = true
    /\ contains diet_types (diet_type form_defaults) = true.
Proof.
  eexists. split; [vm_compute; reflexivity|].
  apply (returned_result_is_well_formed form_defaults). vm_compute. reflexivity.
Defined.


(** ** Local food across the calculators *)

Lemma waste_grows_with_local_food p p' f s s' :
  recycling_habit p' = recycling_habit p ->
  composting p' = composting p ->
  single_use_plastics p' = single_use_plastics p ->
  local_food p <= local_food p' ->
  calculate_waste_impact p f = Ok s ->
  calculate_waste_impact p' f = Ok s' ->
  (s <= s')%Z.
Proof.
  intros Er Ec Ep Hl. unfold calculate_waste_impact. rewrite Er, Ec, Ep.
  destruct (getitem recycling_score_map (recycling_habit p)) as [a|];
    cbn [bind]; [|discriminate].
  destruct (getitem plastic_score_map (single_use_plastics p)) as [b|];
    cbn [bind]; [|discriminate].
  intros H H'. injection H as <-. injection H' as <-.
  match goal with
  | |- (Z.max 0 (Z.min 100 (round ?x)) <= Z.max 0 (Z.min 100 (round ?y)))%Z =>
      assert (Hr : (round x <= round y)%Z)
  end.
  { apply round_mono. destruct (composting p); lra. }
  lia.
Qed.

Lemma food_grows_with_local_food p p' f s s' :
  diet_type p' = diet_type p ->
  local_food p <= local_food p' ->
  meals_out p' <= meals_out p ->
  calculate_food_impact p f = Ok s ->
  calculate_food_impact p' f = Ok s' ->
  (s <= s')%Z.
Proof.
  intros Ed Hl Hm. unfold calculate_food_impact. rewrite Ed.
  destruct (getitem diet_score_map (diet_type p)) as [v|]; cbn [bind]; [|discriminate].
  intros H H'. injection H as <-. injection H' as <-.
  match goal with
  | |- (Z.max 0 (Z.min 100 (round ?x)) <= Z.max 0 (Z.min 100 (round ?y)))%Z =>
      assert (Hr : (round x <= round y)%Z)
  end.
  { apply round_mono. lra. }
  lia.
Qed.

(** Between two profiles with the same diet, more local food and fewer
    restaurant meals never lower the food score. *)
Theorem food_score_is_monotone (p p' : UserProfile) (f : EnvironmentalFactors) :
  contains diet_types (diet_type p) = true ->
  diet_type p' = diet_type p ->
  local_food p <= local_food p' ->
  meals_out p' <= meals_out p ->
  exists s s',
    calculate_food_impact p f = Ok s
    /\ calculate_food_impact p' f = Ok s'
    /\ (s <= s')%Z.
Proof.
  intros Hd Ed Hl Hm.
  destruct (food_total p f Hd) as [s Hs].
  destruct (food_total p' f) as [s' Hs']; [rewrite Ed; exact Hd|].
  exists s, s'. split; [exact Hs|]. split; [exact Hs'|].
  exact (food_grows_with_local_food p p' f s s' Ed Hl Hm Hs Hs').
Qed.

Lemma food_score_is_monotone_witness :
  contains diet_types (diet_type form_defaults) = true
  /\ diet_type (set_local_food form_defaults 80) = diet_type form_defaults
  /\ local_food form_defaults <= local_food (set_local_food form_defaults 80)
  /\ meals_out (set_local_food form_defaults 80) <= meals_out form_defaults
  /\ exists s s',
       calculate_food_impact form_defaults get_oahu_environmental_factors = Ok s
       /\ calculate_food_impact (set_local_food form_defaults 80)
            get_oahu_environmental_factors = Ok s'
       /\ (s <= s')%Z.
Proof.
  split; [reflexivity|]. split; [reflexivity|].
  split; [unfold Qle; simpl; lia|]. split; [unfold Qle; simpl; lia|].
  apply (food_score_is_monotone form_defaults (set_local_food form_defaults 80));
    try reflexivity; unfold Qle; simpl; lia.
Defined.

Lemma weighted_mono t e w wa f wa' f' :
  (wa <= wa')%Z -> (f <= f')%Z ->
  weighted t e w wa f <= weighted t e w wa' f'.
Proof.
  intros Hwa Hf. rewrite Zle_Qle in Hwa, Hf.
  unfold weighted. cbn [weights w_transport w_energy w_water w_waste w_food]. lra.
Qed.

(** [local_food] is read by the waste and the food calculator alike: on a
    valid profile, raising it leaves the transport, energy and water scores
    unchanged and never lowers the waste score, the food score or
    [overall_score]. *)
Theorem local_food_never_lowers_overall_score (p : UserProfile) (a b : Q) :
  valid_profile p = true ->
  0 <= a ->
  a <= b ->
  exists r r',
    calculate_impact (set_local_food p a) = Ok r
    /\ calculate_impact (set_local_food p b) = Ok r'
    /\ transport_score r' = transport_score r
    /\ energy_score r' = energy_score r
    /\ water_score r' = water_score r
    /\ (waste_score r <= waste_score r')%Z
    /\ (food_score r <= food_score r')%Z
    /\ (overall_score r <= overall_score r')%Z.
Proof.
  intros Hv Ha Hab. apply valid_profile_Valid in Hv.
  pose proof (v_household_size p Hv) as Hhs.
  destruct (impact_returns (set_local_food p a))
    as (r & Hr & Ht & He & Hw & Hwa & Hf & Ho & _);
    [exact (v_car_type p Hv) | cbn [set_local_food household_size]; lia
    | exact (v_recycling_habit p Hv) | exact (v_single_use_plastics p Hv)
    | exact Ha | exact (v_diet_type p Hv) |].
  destruct (impact_returns (set_local_food p b))
    as (r' & Hr' & Ht' & He' & Hw' & Hwa' & Hf' & Ho' & _);
    [exact (v_car_type p Hv) | cbn [set_local_food household_size]; lia
    | exact (v_recycling_habit p Hv) | exact (v_single_use_plastics p Hv)
    | cbn [set_local_food local_food]; lra | exact (v_diet_type p Hv) |].
  exists r, r'. split; [exact Hr|]. split; [exact Hr'|].
  assert (Et : transport_score r' = transport_score r).
  { change (calculate_transport_impact (set_local_food p b) get_oahu_environmental_factors)
      with (calculate_transport_impact (set_local_food p a) get_oahu_environmental_factors)
      in Ht'.
    congruence. }
  assert (Ee : energy_score r' = energy_score r).
  { change (calculate_energy_impact (set_local_food p b) get_oahu_environmental_factors)
      with (calculate_energy_impact (set_local_food p a) get_oahu_environmental_factors)
      in He'.
    congruence. }
  assert (Ew : water_score r' = water_score r).
  { change (calculate_water_impact (set_local_food p b) get_oahu_environmental_factors)
      with (calculate_water_impact (set_local_food p a) get_oahu_environmental_factors)
      in Hw'.
    congruence. }
  assert (Hwaste : (waste_score r <= waste_score r')%Z).
  { apply (waste_grows_with_local_food (set_local_food p a) (set_local_food p b)
             get_oahu_environmental_factors); try reflexivity; try assumption. }
  assert (Hfood : (food_score r <= food_score r')%Z).
  { apply (food_grows_with_local_food (set_local_food p a) (set_local_food p b)
             get_oahu_environmental_factors); try reflexivity; try assumption.
    apply Qle_refl. }
  repeat (split; [assumption|]).
  rewrite Ho, Ho'. apply round_mono. unfold weighted_sum.
  rewrite Et, Ee, Ew. apply weighted_mono; assumption.
Qed.

Lemma local_food_never_lowers_overall_score_witness :
  valid_profile form_defaults = true
  /\ 0 <= 10 /\ 10 <= 90
  /\ exists r r',
       calculate_impact (set_local_food form_defaults 10) = Ok r
       /\ calculate_impact (set_local_food form_defaults 90) = Ok r'
       /\ transport_score r' = transport_score r
       /\ energy_score r' = energy_score r
       /\ water_score r' = water_score r
       /\ (waste_score r <= waste_score r')%Z
       /\ (food_score r <= food_score r')%Z
       /\ (overall_score r <= overall_score r')%Z.
Proof.
  split; [reflexivity|].
  split; [unfold Qle; simpl; lia|]. split; [unfold Qle; simpl; lia|].
  apply (local_food_never_lowers_overall_score form_defaults 10 90);
    [reflexivity | unfold Qle; simpl; lia | unfold Qle; simpl; lia].
Defined.

(** ** Improvement areas *)

(** The selector never comes back empty-handed: the list holds between
    one and five labels, without repetition, each one of the five category
    labels. *)
Theorem areas_for_improvement_never_empty (r : ImpactResult) :
  areas_for_improvement r <> []
  /\ (1 <= List.length (areas_for_improvement r) <= 5)%nat
  /\ NoDup (areas_for_improvement r)
  /\ incl (areas_for_improvement r)
       ["transportation"; "energy"; "water"; "waste"; "food"].
Proof.
  unfold areas_for_improvement.
  set (t := transport_score r). set (e := energy_score r).
  set (w := water_score r). set (wa := waste_score r). set (f := food_score r).
  clearbody t e w wa f.
  set (m := Z.min t (Z.min e (Z.min w (Z.min wa f)))).
  assert (Hin : (m = t \/ m = e \/ m = w \/ m = wa \/ m = f)%Z)
    by (subst m; lia).
  clearbody m.
  assert (Hlabels : forall l : list string,
            l <> [] ->
            (List.length l <= 5)%nat ->
            NoDup l ->
            incl l ["transportation"; "energy"; "water"; "waste"; "food"] ->
            l <> [] /\ (1 <= List.length l <= 5)%nat /\ NoDup l
            /\ incl l ["transportation"; "energy"; "water"; "waste"; "food"]).
  { intros l Hne Hlen Hnd Hincl. repeat split; try assumption.
    destruct l; [contradiction | simpl; lia]. }
  destruct (Z.ltb_spec t 60), (Z.ltb_spec e 60), (Z.ltb_spec w 60),
    (Z.ltb_spec wa 60), (Z.ltb_spec f 60); cbn [app];
    repeat match goal with
    | |- context [Z.eqb ?a ?b] => destruct (Z.eqb_spec a b)
    end; cbn [app]; try (exfalso; lia);
    (apply Hlabels;
     [ discriminate
     | simpl; lia
     | repeat constructor; simpl; intuition discriminate
     | intros x Hx; simpl in Hx; simpl; intuition ]).
Qed.


(** With non-negative showers and household size, no selection of
    conservation measures raises the water estimate above the one without
    any measure. *)
Theorem conservation_never_raises_water_usage
    (p : UserProfile) (measures : list string) (f : EnvironmentalFactors) :
  0 <= shower_length p ->
  0 <= shower_frequency p ->
  (0 <= household_size p)%Z ->
  (calculate_water_usage (set_water_conservation p measures) f
   <= calculate_water_usage (set_water_conservation p []) f)%Z.
Proof.
  intros Hl Hf Hhs.
  rewrite Zle_Qle in Hhs. change (inject_Z 0) with 0 in Hhs.
  assert (Hs : 0 <= shower_length p * shower_frequency p)
    by (apply Qmult_le_0_compat; assumption).
  unfold calculate_water_usage.
  cbn [set_water_conservation shower_length shower_frequency household_size
       water_conservation contains].
  apply round_mono.
  unfold Qdiv. change (/ 7) with (1 # 7).
  destruct (contains measures "Low-flow showerheads/faucets");
    destruct (contains measures "Dual-flush toilets");
    destruct (contains measures "Drought-resistant landscaping");
    lra.
Qed.

Lemma conservation_never_raises_water_usage_witness :
  0 <= shower_length form_defaults
  /\ 0 <= shower_frequency form_defaults
  /\ (0 <= household_size form_defaults)%Z
  /\ (calculate_water_usage
        (set_water_conservation form_defaults
           ["Low-flow showerheads/faucets"; "Drought-resistant landscaping"])
        get_oahu_environmental_factors
      <= calculate_water_usage (set_water_conservation form_defaults [])
           get_oahu_environmental_factors)%Z.
Proof.
  split; [unfold Qle; simpl; lia|]. split; [unfold Qle; simpl; lia|].
  split; [simpl; lia|].
  apply (conservation_never_raises_water_usage form_defaults);
    [unfold Qle; simpl; lia | unfold Qle; simpl; lia | simpl; lia].
Defined.
